(** * rssfilter: a shallow embedding of [rssfilter/__init__.py]

    The module fetches a feed, runs a filter over its entries and hands the
    result to a feed generator.  Feeds are Python dicts that the filters
    update in place, so the embedding keeps the feed objects in a store and
    lets a filter be a store transformer that may raise.  The values held
    inside a feed object (metadata mapping, list of entries, entry
    mappings, strings, dates) are modelled as immutable trees.

    Layout: Python values and the operations the module applies to them;
    exceptions and the store monad; the collaborators (regular expressions,
    feedparser, time, feedgenerator, BeautifulSoup) as interfaces; the
    functions of the module in source order; then the properties. *)

From Stdlib Require Import ZArith Lia.
From stdpp Require Import base strings gmap list sets sorting.

Set Warnings "-register-all,-clear-no-such-hyp".
Local Open Scope Z_scope.

(** ** Python values *)

(** A [time.struct_time]: the nine integer fields of the calendar tuple. *)
Definition struct_time : Type := Z * Z * Z * Z * Z * Z * Z * Z * Z.

(** The values a feed holds.  A [datetime.datetime] is naive and is
    represented by its position on the time line; [VFPDict] is a
    [feedparser.FeedParserDict], [VDict] a plain [dict] with string keys. *)
Inductive value : Type :=
  | VNone
  | VStr (s : string)
  | VInt (n : Z)
  | VDatetime (t : Z)
  | VStructTime (t : struct_time)
  | VList (l : list value)
  | VDict (m : gmap string value)
  | VFPDict (m : gmap string value).

(** Hashable values, as stored in a Python [set]. *)
Inductive hkey : Type :=
  | HNone
  | HStr (s : string)
  | HInt (n : Z)
  | HDatetime (t : Z)
  | HStructTime (t : struct_time).

Global Instance hkey_eq_dec : EqDecision hkey.
Proof. solve_decision. Defined.

Global Instance hkey_countable : Countable hkey.
Proof.
  refine (inj_countable'
    (λ k, match k with
          | HNone => inl ()
          | HStr s => inr (inl s)
          | HInt n => inr (inr (inl n))
          | HDatetime t => inr (inr (inr (inl t)))
          | HStructTime t => inr (inr (inr (inr t)))
          end)
    (λ x, match x with
          | inl _ => HNone
          | inr (inl s) => HStr s
          | inr (inr (inl n)) => HInt n
          | inr (inr (inr (inl t))) => HDatetime t
          | inr (inr (inr (inr t))) => HStructTime t
          end) _).
  by intros [].
Defined.

(** ** Exceptions and results *)

Inductive exn : Type :=
  | KeyError (k : string)
  | TypeError
  | ValueError
  | AttributeError
  | OverflowError
  | AssertionError (counted unique : nat)
  | ReError
  | FeedFetchError
  | FeedFilterError (msg : string)
  | ExternalError (who : string).

Inductive result (A : Type) : Type :=
  | Ok (a : A)
  | Err (e : exn).
Arguments Ok {A} a.
Arguments Err {A} e.

Global Instance result_ret : MRet result := λ A a, Ok a.
Global Instance result_bind : MBind result := λ A B f r,
  match r with
  | Ok a => f a
  | Err e => Err e
  end.

(** [mapM] in [result]: the first failure, left to right, is the outcome. *)
Fixpoint result_mapM {A B} (f : A → result B) (l : list A) : result (list B) :=
  match l with
  | [] => Ok []
  | x :: l' => y ← f x; ys ← result_mapM f l'; Ok (y :: ys)
  end.

Definition of_option {A} (e : exn) (o : option A) : result A :=
  match o with
  | Some a => Ok a
  | None => Err e
  end.

(** ** The Python operations the module uses *)

Module Py.

(** Truth value testing ([bool(v)]). *)
Definition truthy (v : value) : bool :=
  match v with
  | VNone => false
  | VStr s => negb (String.eqb s "")
  | VInt n => negb (n =? 0)
  | VDatetime _ => true
  | VStructTime _ => true
  | VList l => match l with [] => false | _ => true end
  | VDict m | VFPDict m => negb (bool_decide (m = ∅))
  end.

(** [v[k]] for a string key [k]: a mapping looks the key up, every other
    kind of value rejects a string subscript.  A FeedParserDict reads some
    keys under other names ('description' as 'summary'); the module
    subscripts one only with 'feed' and 'status', which have no other name,
    and the renaming is not modelled. *)
Definition getitem (v : value) (k : string) : result value :=
  match v with
  | VDict m | VFPDict m => of_option (KeyError k) (m !! k)
  | _ => Err TypeError
  end.

(** [v.get(k, None)]: only mappings have the method. *)
Definition get (v : value) (k : string) : result value :=
  match v with
  | VDict m | VFPDict m => Ok (default VNone (m !! k))
  | _ => Err AttributeError
  end.

(** [v[k] = x] for a string key [k]. *)
Definition setitem (v : value) (k : string) (x : value) : result value :=
  match v with
  | VDict m => Ok (VDict (<[k := x]> m))
  | VFPDict m => Ok (VFPDict (<[k := x]> m))
  | _ => Err TypeError
  end.

(** [v.pop(k)]: the value under [k] and the mapping without [k].  A list
    has a [pop] that wants an index; the other kinds have no such
    method. *)
Definition pop (v : value) (k : string) : result (value * value) :=
  match v with
  | VDict m => x ← of_option (KeyError k) (m !! k); Ok (x, VDict (delete k m))
  | VFPDict m => x ← of_option (KeyError k) (m !! k); Ok (x, VFPDict (delete k m))
  | VList _ => Err TypeError
  | _ => Err AttributeError
  end.

(** The one-character strings of [s], as iteration over a [str] yields. *)
Fixpoint chars (s : string) : list value :=
  match s with
  | EmptyString => []
  | String a s' => VStr (String a EmptyString) :: chars s'
  end.

Definition fields (t : struct_time) : list value :=
  let '(a, b, c, d, e, f, g, h, i) := t in
  VInt <$> [a; b; c; d; e; f; g; h; i].

(** [iter(v)]: the items a [for] loop over [v] visits.  A mapping yields
    its keys; the order of insertion is not kept by [gmap], and the loops of
    the module fail on the first key whatever the order is. *)
Definition iter (v : value) : result (list value) :=
  match v with
  | VList l => Ok l
  | VStr s => Ok (chars s)
  | VStructTime t => Ok (fields t)
  | VDict m | VFPDict m => Ok (VStr <$> (map_to_list m).*1)
  | VNone | VInt _ | VDatetime _ => Err TypeError
  end.

(** The items visited by a loop over [a + b].  Lists, strings and tuples
    concatenate with their own kind; other operands raise. *)
Definition iter_add (a b : value) : result (list value) :=
  match a, b with
  | VList l1, VList l2 => Ok (l1 ++ l2)
  | VStr s1, VStr s2 => Ok (chars (s1 +:+ s2))
  | VStructTime t1, VStructTime t2 => Ok (fields t1 ++ fields t2)
  | _, _ => Err TypeError
  end.

(** [dict(v)].  A mapping is copied; an empty sequence gives the empty
    dict; a non-empty string is a sequence of items of length one and a
    struct_time a sequence of integers, both rejected.  A non-empty list
    would have to be a list of key/value pairs, which feeds do not hold:
    the model rejects it. *)
Definition dict (v : value) : result (gmap string value) :=
  match v with
  | VDict m | VFPDict m => Ok m
  | VList [] => Ok ∅
  | VStr s => if String.eqb s "" then Ok ∅ else Err ValueError
  | VList (_ :: _) => Err ValueError
  | VStructTime _ | VNone | VInt _ | VDatetime _ => Err TypeError
  end.

(** [**v]: the keyword arguments a mapping unpacks to. *)
Definition kwargs (v : value) : result (gmap string value) :=
  match v with
  | VDict m | VFPDict m => Ok m
  | _ => Err TypeError
  end.

Definition is_datetime (v : value) : bool :=
  match v with VDatetime _ => true | _ => false end.

(** [hash(v)]: mappings and lists are unhashable. *)
Definition hash (v : value) : result hkey :=
  match v with
  | VNone => Ok HNone
  | VStr s => Ok (HStr s)
  | VInt n => Ok (HInt n)
  | VDatetime t => Ok (HDatetime t)
  | VStructTime t => Ok (HStructTime t)
  | VList _ | VDict _ | VFPDict _ => Err TypeError
  end.

Definition struct_time_ltb (s t : struct_time) : bool :=
  let '(a1, b1, c1, d1, e1, f1, g1, h1, i1) := s in
  let '(a2, b2, c2, d2, e2, f2, g2, h2, i2) := t in
  let fix lex (l : list (Z * Z)) : bool :=
    match l with
    | [] => false
    | (x, y) :: l' => (x <? y) || ((x =? y) && lex l')
    end in
  lex [(a1, a2); (b1, b2); (c1, c2); (d1, d2); (e1, e2);
       (f1, f2); (g1, g2); (h1, h2); (i1, i2)].

(** [a < b] on sort keys.  Values of one scalar kind are ordered; kinds do
    not mix, and [None] and mappings are not ordered.  The ordering of
    lists is not modelled: comparing them is an error here. *)
Definition lt (a b : value) : result bool :=
  match a, b with
  | VInt x, VInt y => Ok (x <? y)
  | VDatetime x, VDatetime y => Ok (x <? y)
  | VStr x, VStr y => Ok (String.ltb x y)
  | VStructTime x, VStructTime y => Ok (struct_time_ltb x y)
  | _, _ => Err TypeError
  end.

(** [lo <= v < hi] for integer literals [lo] and [hi]: the chained
    comparison of a status code. *)
Definition int_in_range (lo hi : Z) (v : value) : result bool :=
  match v with
  | VInt n => Ok ((lo <=? n) && (n <? hi))
  | _ => Err TypeError
  end.

End Py.

(** ** The store and the monad of the module's functions *)

(** A feed object is a dict living in the store; filters receive and return
    references to it.  The store also records the sources that were
    fetched, which is the module's only input/output. *)
Definition loc := nat.

Record state : Type := State {
  heap : gmap loc (gmap string value);
  fetched : list string
}.

(** A computation runs on a state and gives a value or raises; the state it
    leaves is kept in both cases. *)
Definition M (A : Type) : Type := state → result A * state.

Global Instance M_ret : MRet M := λ A a st, (Ok a, st).
Global Instance M_bind : MBind M := λ A B f m st,
  match m st with
  | (Ok a, st') => f a st'
  | (Err e, st') => (Err e, st')
  end.

Definition lift {A} (r : result A) : M A := λ st, (r, st).
Definition raise {A} (e : exn) : M A := λ st, (Err e, st).

(** The dict stored at [l]. *)
Definition deref (st : state) (l : loc) : gmap string value := heap st !!! l.

Definition store (l : loc) (d : gmap string value) (st : state) : state :=
  State (<[l := d]> (heap st)) (fetched st).

(** [F[k]] and [F[k] = v] on the feed object at [F]. *)
Definition obj_getitem (F : loc) (k : string) : M value := λ st,
  (of_option (KeyError k) (deref st F !! k), st).

Definition obj_setitem (F : loc) (k : string) (v : value) : M unit := λ st,
  (Ok (), store F (<[k := v]> (deref st F)) st).

(** A new object holding [d]. *)
Definition alloc (d : gmap string value) : M loc := λ st,
  let c := fresh (dom (heap st)) in (Ok c, store c d st).

(** [copy.deepcopy(F)]: a new object with the contents of [F]; the values
    inside are trees, so they are shared by neither object. *)
Definition deepcopy (F : loc) : M loc := λ st, alloc (deref st F) st.

(** A filter, as [transform_func] in the source: it takes a feed, may change
    it in place and returns a feed. *)
Definition FeedFilter : Type := loc → M loc.

(** ** Collaborators *)

(** Regular expressions ([re]).  [re_compile] is [None] where [re.compile]
    raises [re.error]; [re_span p s i j] tells whether [p] matches the slice
    [s[i:j]] of the subject [s]. *)
Class Regex : Type := {
  pattern : Type;
  re_compile : string → option pattern;
  re_span : pattern → string → nat → nat → bool
}.

(** [p.search(s)] scans the subject for a position where the pattern
    matches; its result is truthy when there is one. *)
Definition re_search {RE : Regex} (p : pattern) (s : string) : bool :=
  existsb (λ i : nat, existsb (λ j : nat, re_span p s i j)
                        (seq i (S (String.length s) - i)))
          (seq 0 (S (String.length s))).

(** [p.fullmatch(s)], for comparison. *)
Definition re_fullmatch {RE : Regex} (p : pattern) (s : string) : bool :=
  re_span p s 0 (String.length s).

(** feedparser, the clock and calendar, feedgenerator and BeautifulSoup.
    [None] stands for the exception the collaborator raises. *)
Class Collaborators : Type := {
  feedparser_parse : string → value;
  time_mktime : struct_time → option Z;
  datetime_fromtimestamp : Z → option Z;
  rss_feed : Type;
  Rss201rev2Feed : value → value → value → gmap string value → option rss_feed;
  add_item : rss_feed → gmap string value → option rss_feed;
  writeString : rss_feed → string;
  prettify : string → string
}.

(** ** The module *)

Section Rssfilter.
Context {RE : Regex} {CO : Collaborators}.

(** Lines 32-34 and 38-40: every value that is a FeedParserDict becomes a
    plain dict. *)
Definition cast_items (m : gmap string value) : gmap string value :=
  (λ v, match v with VFPDict d => VDict d | _ => v end) <$> m.

Definition _cast_feed_to_primitives (feed : value) : result value :=
  feed ← Py.dict feed;
  meta ← of_option (KeyError "feed") (feed !! "feed");
  meta ← Py.dict meta;
  let feed := <["feed" := VDict (cast_items meta)]> feed in
  entries ← of_option (KeyError "entries") (feed !! "entries");
  items ← Py.iter entries;
  nuentries ← result_mapM (λ i, i ← Py.dict i; Ok (VDict (cast_items i))) items;
  Ok (VDict (<["entries" := VList nuentries]> feed)).

(** Lines 60-61, for one entry. *)
Definition add_pubdate (i : value) : result value :=
  pubdate ← Py.get i "pubdate";
  if Py.is_datetime pubdate then Ok i
  else
    parsed ← Py.getitem i "published_parsed";
    match parsed with
    | VStructTime t =>
        secs ← of_option OverflowError (time_mktime t);
        stamp ← of_option OverflowError (datetime_fromtimestamp secs);
        Py.setitem i "pubdate" (VDatetime stamp)
    | _ => Err TypeError
    end.

(** Lines 56-62 on the parsed feed [f]: the two checks, the cast and the
    publication dates. *)
Definition prepare (f : value) : result (gmap string value) :=
  meta ← Py.getitem f "feed";
  if negb (Py.truthy meta) then Err FeedFetchError
  else
    status ← Py.getitem f "status";
    ok ← Py.int_in_range 200 300 status;
    if negb ok then Err FeedFetchError
    else
      f ← _cast_feed_to_primitives f;
      entries ← Py.getitem f "entries";
      items ← Py.iter entries;
      items ← result_mapM add_pubdate items;
      f ← Py.dict f;
      Ok (<["entries" := VList items]> f).

(** The feed is fetched, which the store records, and the prepared dict
    becomes a feed object. *)
Definition fetch_and_prepare_feed (feed_url : string) : M loc := λ st,
  let st := State (heap st) (fetched st ++ [feed_url]) in
  (f ← lift (prepare (feedparser_parse feed_url)); alloc f) st.

(** Lines 72-78: the feed-level description, filled in where it is
    missing or empty.  [meta] is the mapping [f['feed']]; the result is
    that mapping after the assignment, if one is made. *)
Definition backfill_description (meta : value) : result value :=
  description ← Py.get meta "description";
  if negb (Py.truthy description) then
    title ← Py.getitem meta "title";
    if Py.truthy title then Py.setitem meta "description" title
    else
      link ← Py.getitem meta "link";
      if Py.truthy link then Py.setitem meta "description" link
      else Py.setitem meta "description" (VStr "Unknown title")
  else Ok meta.

(** [f['feed'].pop(k)] *)
Definition meta_pop (f : loc) (k : string) : M value :=
  meta ← obj_getitem f "feed";
  '(x, meta) ← lift (Py.pop meta k);
  obj_setitem f "feed" meta;;
  mret x.

(** Lines 72-82 up to the call of the feed generator: the positional
    arguments [title], [link], [description] and the keyword arguments
    [**f['feed']] it is called with. *)
Definition feed_arguments (f : loc)
    : M (value * value * value * gmap string value) :=
  meta ← obj_getitem f "feed";
  meta ← lift (backfill_description meta);
  obj_setitem f "feed" meta;;
  title ← meta_pop f "title";
  link ← meta_pop f "link";
  description ← meta_pop f "description";
  meta ← obj_getitem f "feed";
  kwargs ← lift (Py.kwargs meta);
  mret (title, link, description, kwargs).

(** Lines 84-87, for one entry: the entry after the assignment, if one is
    made.  The membership tests are those of a plain dict, which is what
    the entries of a prepared feed are.  A FeedParserDict presents keys
    that it does not hold (the docstring of lines 24-28): with a summary it
    answers ['description' in i] through its alias, and without one line 86
    finds nothing to copy, so that the entry stays as it is either way.  An
    entry that is not a mapping cannot be passed on as keyword arguments
    (line 88), whatever the membership tests give. *)
Definition entry_description (i : value) : result value :=
  match i with
  | VDict m =>
      match m !! "description", m !! "summary" with
      | None, Some alt => Py.setitem i "description" alt
      | _, _ => Ok i
      end
  | VFPDict _ => Ok i
  | _ => Err TypeError
  end.

(** The loop of lines 83-88 from entry number [n] on. *)
Fixpoint add_items (f : loc) (n : nat) (items : list value) (o : rss_feed)
    : M rss_feed :=
  match items with
  | [] => mret o
  | i :: items' =>
      i ← lift (entry_description i);
      entries ← obj_getitem f "entries";
      (match entries with
       | VList l => obj_setitem f "entries" (VList (<[n := i]> l))
       | _ => mret ()
       end);;
      kwargs ← lift (Py.kwargs i);
      o ← lift (of_option (ExternalError "feedgenerator") (add_item o kwargs));
      add_items f (S n) items' o
  end.

(** Lines 83-91. *)
Definition write_feed (f : loc) (o : rss_feed) : M string :=
  entries ← obj_getitem f "entries";
  items ← lift (Py.iter entries);
  o ← add_items f 0 items o;
  mret (prettify (writeString o)).

(** Lines 72-91. *)
Definition emit (f : loc) : M string :=
  '(title, link, description, kwargs) ← feed_arguments f;
  o ← lift (of_option (ExternalError "feedgenerator")
              (Rss201rev2Feed title link description kwargs));
  write_feed f o.

Definition filter_feed (feed_url : string) (transform_func : FeedFilter) : M string :=
  f ← fetch_and_prepare_feed feed_url;
  f ← transform_func f;
  emit f.

(** The argument of [entry_field_re_filter]: a pattern source or a
    compiled pattern. *)
Inductive pattern_arg : Type :=
  | PStr (s : string)
  | PCompiled (p : pattern).

(** [re_pattern.search(v)]: the subject has to be a string. *)
Definition search (re_pattern : pattern) (v : value) : result bool :=
  match v with
  | VStr s => Ok (re_search re_pattern s)
  | _ => Err TypeError
  end.

(** The loop of lines 99-101; [nufeed] is the list built so far. *)
Fixpoint fil_loop (re_pattern : pattern) (key : string)
    (items nufeed : list value) : result (list value) :=
  match items with
  | [] => Ok nufeed
  | i :: items' =>
      v ← Py.getitem i key;
      found ← search re_pattern v;
      fil_loop re_pattern key items' (if found : bool then nufeed ++ [i] else nufeed)
  end.

(** The closure [fil] of lines 97-103. *)
Definition fil (re_pattern : pattern) (key : string) : FeedFilter := λ feed,
  entries ← obj_getitem feed "entries";
  items ← lift (Py.iter entries);
  nufeed ← lift (fil_loop re_pattern key items []);
  obj_setitem feed "entries" (VList nufeed);;
  mret feed.

Definition entry_field_re_filter (re_pattern : pattern_arg) (key : string)
    : result FeedFilter :=
  re_pattern ← match re_pattern with
               | PStr s => of_option ReError (re_compile s)
               | PCompiled p => Ok p
               end;
  Ok (fil re_pattern key).

Definition in_url_filter (re_pattern : pattern_arg) : result FeedFilter :=
  entry_field_re_filter re_pattern "link".

Definition in_title_filter (re_pattern : pattern_arg) : result FeedFilter :=
  entry_field_re_filter re_pattern "title".

Definition AND_filter (filter1 filter2 : FeedFilter) : FeedFilter :=
  λ F, F ← filter2 F; filter1 F.

(** The loop of lines 133-136. *)
Fixpoint or_loop (items entries : list value) (seen_urls : gset hkey)
    : result (list value * gset hkey) :=
  match items with
  | [] => Ok (entries, seen_urls)
  | i :: items' =>
      link ← Py.getitem i "link";
      link ← Py.hash link;
      if bool_decide (link ∈ seen_urls) then or_loop items' entries seen_urls
      else or_loop items' (entries ++ [i]) (seen_urls ∪ {[link]})
  end.

(** [list.sort(key=...)]: the keys are computed first, then the list is
    sorted by [<] on the keys, equal keys keeping their order.  The model
    sorts by insertion. *)
Fixpoint sort_insert (k : value) (x : value) (l : list (value * value))
    : result (list (value * value)) :=
  match l with
  | [] => Ok [(k, x)]
  | (k', y) :: l' =>
      below ← Py.lt k' k;
      if below : bool then l'' ← sort_insert k x l'; Ok ((k', y) :: l'')
      else Ok ((k, x) :: (k', y) :: l')
  end.

Fixpoint sort_keyed (l : list (value * value)) : result (list (value * value)) :=
  match l with
  | [] => Ok []
  | (k, x) :: l' => l'' ← sort_keyed l'; sort_insert k x l''
  end.

Definition list_sort (key : value → result value) (l : list value)
    : result (list value) :=
  keys ← result_mapM key l;
  sorted ← sort_keyed (zip keys l);
  Ok (snd <$> (sorted : list (value * value))).

(** Lines 131-139: the entries of the two filtered feeds are merged,
    sorted and counted. *)
Definition or_merge (items : list value) : result (list value) :=
  '(entries, seen_urls) ← or_loop items [] ∅;
  entries ← list_sort (λ i, Py.getitem i "pubdate") entries;
  if bool_decide (length entries = size seen_urls) then Ok entries
  else Err (AssertionError (size seen_urls) (length entries)).

(** The closure [orfilter] of lines 127-141. *)
Definition OR_filter (filter1 filter2 : FeedFilter) : FeedFilter := λ F,
  copy ← deepcopy F;
  filtered1 ← filter1 copy;
  filtered2 ← filter2 F;
  entries1 ← obj_getitem filtered1 "entries";
  entries2 ← obj_getitem filtered2 "entries";
  items ← lift (Py.iter_add entries1 entries2);
  entries ← lift (or_merge items);
  obj_setitem F "entries" (VList entries);;
  mret F.

Definition builtin_main (feed : string) (url_filters title_filters : list pattern_arg)
    (operation : string) : M string :=
  title_filters ← lift (result_mapM in_title_filter title_filters);
  url_filters ← lift (result_mapM in_url_filter url_filters);
  let both_filters := title_filters ++ url_filters in
  if negb (bool_decide (operation ∈ ["OR"; "AND"])) then
    raise (FeedFilterError
             ("Operation can only be AND or OR: '" +:+ operation +:+ "'"))
  else
    final_filter ← match both_filters with
                   | [] => raise (FeedFilterError "No filters provided!")
                   | [filter1] => mret filter1
                   | [filter1; filter2] =>
                       if String.eqb operation "OR"
                       then mret (OR_filter filter1 filter2)
                       else mret (AND_filter filter1 filter2)
                   | _ => raise (FeedFilterError
                            "Too many filters given; use Regex to re-use some?")
                   end;
    filter_feed feed final_filter.

End Rssfilter.

(** ** Notions used to state the properties *)

Section Notions.
Context {RE : Regex}.

(** An entry with a string under [key]. *)
Definition has_str (key : string) (e : value) : Prop :=
  ∃ s, Py.getitem e key = Ok (VStr s).

(** The entries a field filter is meant to keep: a search of the string
    under [key] finds a match. *)
Definition field_matches (p : pattern) (key : string) (e : value) : bool :=
  match Py.getitem e key with
  | Ok (VStr s) => re_search p s
  | _ => false
  end.

(** The pattern a filter is built from, where there is one. *)
Definition compiled (re_pattern : pattern_arg) : option pattern :=
  match re_pattern with
  | PStr s => re_compile s
  | PCompiled p => Some p
  end.

(** The patterns of a list of filters, when all of them compile. *)
Definition compile_all (re_patterns : list pattern_arg) : option (list pattern) :=
  mapM compiled re_patterns.

End Notions.

(** The link of an entry as a set element, and its publication date. *)
Definition link_key (e : value) : option hkey :=
  match Py.getitem e "link" with
  | Ok v => match Py.hash v with Ok h => Some h | Err _ => None end
  | Err _ => None
  end.

Definition pubdate_of (e : value) : option Z :=
  match Py.getitem e "pubdate" with
  | Ok (VDatetime t) => Some t
  | _ => None
  end.

(** An entry as the data model has it: a hashable link and a datetime
    [pubdate]. *)
Definition entry_ok (e : value) : bool :=
  bool_decide (is_Some (link_key e)) && bool_decide (is_Some (pubdate_of e)).

(** Deduplication by link, as the specification words it: an entry stays
    when no earlier entry has its link. *)
Fixpoint keep_first (l : list value) : list value :=
  match l with
  | [] => []
  | x :: l' => x :: filter (λ y, link_key y ≠ link_key x) (keep_first l')
  end.

(** Ascending by [pubdate]. *)
Definition pub_le (x y : value) : Prop :=
  match pubdate_of x, pubdate_of y with
  | Some a, Some b => a ≤ b
  | _, _ => False
  end.

(** [out] is [l] sorted ascending by [pubdate], entries of one date keeping
    their order. *)
Definition sorted_by_pubdate (l out : list value) : Prop :=
  out ≡ₚ l ∧
  StronglySorted pub_le out ∧
  ∀ t, filter (λ e, pubdate_of e = Some t) out = filter (λ e, pubdate_of e = Some t) l.

(** Sorting by insertion on the dates, the pure counterpart of
    [list_sort] on entries that all carry one. *)
Definition stamp (e : value) : Z := default 0 (pubdate_of e).

Fixpoint insert_entry (x : value) (l : list value) : list value :=
  match l with
  | [] => [x]
  | y :: l' => if stamp y <? stamp x then y :: insert_entry x l' else x :: y :: l'
  end.

Fixpoint isort (l : list value) : list value :=
  match l with
  | [] => []
  | x :: l' => insert_entry x (isort l')
  end.

Definition stamp_le (x y : value) : Prop := stamp x ≤ stamp y.

Definition keyed (l : list value) : list (value * value) :=
  (λ e, (VDatetime (stamp e), e)) <$> l.

(** The entries still to be seen by the loop of [OR_filter]. *)
Definition unseen (seen : gset hkey) (e : value) : Prop :=
  match link_key e with
  | Some h => h ∉ seen
  | None => True
  end.

Global Instance unseen_dec seen e : Decision (unseen seen e).
Proof. unfold unseen. destruct (link_key e); apply _. Defined.

(** The exceptions of the Python runtime and of the collaborators, as
    opposed to the three the module raises itself. *)
Definition ordinary (e : exn) : bool :=
  match e with
  | AssertionError _ _ | FeedFetchError | FeedFilterError _ => false
  | _ => true
  end.

Definition ordinary_result {A} (r : result A) : Prop :=
  match r with Err e => ordinary e = true | Ok _ => True end.

(** The state after [f['feed']] became the dict [m]. *)
Definition with_meta (f : loc) (m : gmap string value) (st : state) : state :=
  store f (<["feed" := VDict m]> (deref st f)) st.


Definition is_assertion (e : exn) : bool :=
  match e with AssertionError _ _ => true | _ => false end.

Definition raises_assertion {A} (r : result A) : bool :=
  match r with Err e => is_assertion e | Ok _ => false end.

Definition is_filter_error (e : exn) : bool :=
  match e with FeedFilterError _ => true | _ => false end.

Definition raises_filter_error {A} (r : result A) : bool :=
  match r with Err e => is_filter_error e | Ok _ => false end.

(** A mapping none of whose values is a FeedParserDict. *)
Definition plain (m : gmap string value) : Prop :=
  map_Forall (λ _ v, match v with VFPDict _ => False | _ => True end) m.

Global Instance plain_dec m : Decision (plain m).
Proof.
  unfold plain. apply map_Forall_dec. intros _ v. destruct v; apply _.
Defined.

(** A feed structure that is already normalized: plain dicts at the top, in
    the metadata and in every entry, none of them holding a
    FeedParserDict. *)
Definition normalized (feed : value) : bool :=
  match feed with
  | VDict top =>
      match top !! "feed", top !! "entries" with
      | Some (VDict meta), Some (VList es) =>
          bool_decide (plain meta) &&
          forallb (λ e, match e with
                        | VDict m => bool_decide (plain m)
                        | _ => false
                        end) es
      | _, _ => false
      end
  | _ => false
  end.

(** The description the specification asks for: the metadata's own if it is
    set, else the title, else the link, else a fixed string. *)
Definition set_in (m : gmap string value) (k : string) : option value :=
  v ← m !! k; if Py.truthy v then Some v else None.

Definition spec_description (m : gmap string value) : value :=
  match set_in m "description", set_in m "title", set_in m "link" with
  | Some d, _, _ => d
  | None, Some t, _ => t
  | None, None, Some l => l
  | None, None, None => VStr "Unknown title"
  end.

(** A filter that is not a predicate on entries: it drops the first entry.
    In Python:
      def drop_first(feed):
          if isinstance(feed['entries'], list):
              feed['entries'] = feed['entries'][1:]
          return feed *)
Definition drop_first : FeedFilter := λ feed,
  entries ← obj_getitem feed "entries";
  match entries with
  | VList l => obj_setitem feed "entries" (VList (tail l));; mret feed
  | _ => mret feed
  end.

(** ** A concrete setting to run the definitions in *)

Module Demo.

Definition plain_char (a : Ascii.ascii) : bool :=
  let n := Ascii.nat_of_ascii a in
  ((48 <=? n) && (n <=? 57) || (65 <=? n) && (n <=? 90)
   || (97 <=? n) && (n <=? 122) || (n =? 32))%nat.

(** Patterns made of letters, digits and spaces: [re] matches them
    literally.  The instance compiles no other pattern; one of those is
    "(", an unterminated group, which [re.compile] rejects as well. *)
Definition literal : Regex := {|
  pattern := string;
  re_compile s :=
    if forallb plain_char (String.list_ascii_of_string s) then Some s else None;
  re_span p s i j :=
    bool_decide (i ≤ j ≤ String.length s)%nat
    && String.eqb (String.substring i (j - i) s) p
|}.

Definition entry (link title : string) (t : Z) : value :=
  VDict (<["link" := VStr link]> (<["title" := VStr title]>
          (<["pubdate" := VDatetime t]> ∅))).

Definition meta : gmap string value :=
  <["title" := VStr "News"]> (<["link" := VStr "http://example.org/"]> ∅).

Definition feed_of (es : list value) : gmap string value :=
  <["feed" := VDict meta]> (<["entries" := VList es]> ∅).

(** A store with one feed object, at location 0. *)
Definition st_of (es : list value) : state := State {[ 0%nat := feed_of es ]} [].

Definition go : value := entry "a" "Go release" 3.
Definition py : value := entry "b" "Python news" 1.
Definition both : value := entry "c" "Go and Python" 2.

(** An entry without a title. *)
Definition untitled : value :=
  VDict (<["link" := VStr "d"]> (<["pubdate" := VDatetime 4]> ∅)).

(** A second entry under the link of [go]. *)
Definition go_again : value := entry "a" "Python on Go" 5.

Definition title_has (s : string) : FeedFilter := fil (RE := literal) s "title".

(** What feedparser returns for the one source that exists, and for every
    other source. *)
Definition raw_entry (link title : string) (t : struct_time) : value :=
  VFPDict (<["link" := VStr link]> (<["title" := VStr title]>
            (<["summary" := VStr title]>
              (<["published_parsed" := VStructTime t]> ∅)))).

Definition parsed : value :=
  VFPDict (<["feed" := VFPDict meta]> (<["status" := VInt 200]>
    (<["entries" := VList [raw_entry "a" "Go release" (2024, 1, 1, 0, 0, 0, 0, 1, 0);
                           raw_entry "b" "Python news" (2024, 1, 2, 0, 0, 0, 1, 2, 0)]]>
      ∅))).

Definition not_found : value :=
  VFPDict (<["feed" := VFPDict meta]> (<["status" := VInt 404]>
    (<["entries" := VList []]> ∅))).

(** A source that answers, with nothing in the feed. *)
Definition empty_source : string := "http://example.org/empty".

Definition parsed_empty : value :=
  VFPDict (<["feed" := VFPDict ∅]> (<["status" := VInt 200]>
    (<["entries" := VList []]> ∅))).

Definition source : string := "http://example.org/feed".

(** A source whose feed has a link but no title. *)
Definition untitled_source : string := "http://example.org/untitled".

Definition parsed_untitled : value :=
  VFPDict (<["feed" := VFPDict (<["link" := VStr "http://example.org/"]> ∅)]>
    (<["status" := VInt 200]> (<["entries" := VList []]> ∅))).

(** Collaborators that can be run: a calendar without time zones, and a
    feed generator that records the links of the items it is given and
    wants a title, a link and a description for each. *)
Definition world : Collaborators := {|
  feedparser_parse url :=
    if String.eqb url source then parsed
    else if String.eqb url untitled_source then parsed_untitled
    else if String.eqb url empty_source then parsed_empty
    else not_found;
  time_mktime t :=
    let '(y, mo, d, h, mi, s, _, _, _) := t in
    Some (((((y * 12 + mo) * 31 + d) * 24 + h) * 60 + mi) * 60 + s);
  datetime_fromtimestamp secs := Some secs;
  rss_feed := list string;
  Rss201rev2Feed title link description kwargs := Some [];
  add_item o kwargs :=
    match kwargs !! "title", kwargs !! "link", kwargs !! "description" with
    | Some _, Some (VStr l), Some _ => Some (o ++ [l])
    | _, _, _ => None
    end;
  writeString o := String.concat ";" o;
  prettify s := s
|}.

Definition st_empty : state := State ∅ [].

End Demo.

(** ** Notions for the further properties *)

(** The dict that a mapping holds. *)
Definition as_map (v : value) : option (gmap string value) :=
  match v with
  | VDict m | VFPDict m => Some m
  | _ => None
  end.

(** A FeedParserDict as a plain dict, every other value as it is. *)
Definition plain_value (v : value) : value :=
  match v with
  | VFPDict d => VDict d
  | _ => v
  end.

(** The items handed to the feed generator one after the other. *)
Fixpoint add_all {CO : Collaborators} (o : rss_feed)
    (items : list (gmap string value)) : option rss_feed :=
  match items with
  | [] => Some o
  | kwargs :: items' => o' ← add_item o kwargs; add_all o' items'
  end.

(** The state after a fetch of [url] is recorded. *)
Definition logged (url : string) (st : state) : state :=
  State (heap st) (fetched st ++ [url]).

(** An entry line 60-61 can date: a mapping with a datetime under 'pubdate',
    or with a struct_time under 'published_parsed' that the clock converts. *)
Definition datable {CO : Collaborators} (e : value) : Prop :=
  ∃ m, as_map e = Some m ∧
    ((∃ t, m !! "pubdate" = Some (VDatetime t)) ∨
     (∃ t secs stamp, m !! "published_parsed" = Some (VStructTime t) ∧
        time_mktime t = Some secs ∧ datetime_fromtimestamp secs = Some stamp)).

(** A source read from a file: feedparser gives no status for it. *)
Module Offline.

Definition parsed : value :=
  VFPDict (<["feed" := VFPDict Demo.meta]> (<["entries" := VList []]> ∅)).

Definition world : Collaborators := {|
  feedparser_parse _ := parsed;
  time_mktime := time_mktime (Collaborators := Demo.world);
  datetime_fromtimestamp := datetime_fromtimestamp (Collaborators := Demo.world);
  rss_feed := rss_feed (Collaborators := Demo.world);
  Rss201rev2Feed := Rss201rev2Feed (Collaborators := Demo.world);
  add_item := add_item (Collaborators := Demo.world);
  writeString := writeString (Collaborators := Demo.world);
  prettify := prettify (Collaborators := Demo.world)
|}.

End Offline.

(** An entry with a link and a title and no date. *)
Definition undated : value :=
  VDict (<["link" := VStr "e"]> (<["title" := VStr "Go undated"]> ∅)).

(** A plain-dict entry after lines 84-87: where it has no 'description'
    and has a 'summary', the summary is its description. *)
Definition describe (m : gmap string value) : gmap string value :=
  match m !! "description", m !! "summary" with
  | None, Some alt => <["description" := alt]> m
  | _, _ => m
  end.

(** A source that answers 200 with metadata and one entry, which has a
    link and a title and no date of any kind. *)
Module Dateless.

Definition source : string := "http://example.org/dateless".

Definition parsed : value :=
  VFPDict (<["feed" := VFPDict Demo.meta]> (<["status" := VInt 200]>
    (<["entries" :=
         VList [VFPDict (<["link" := VStr "e"]> (<["title" := VStr "Go undated"]> ∅))]]>
      ∅))).

Definition world : Collaborators := {|
  feedparser_parse _ := parsed;
  time_mktime := time_mktime (Collaborators := Demo.world);
  datetime_fromtimestamp := datetime_fromtimestamp (Collaborators := Demo.world);
  rss_feed := rss_feed (Collaborators := Demo.world);
  Rss201rev2Feed := Rss201rev2Feed (Collaborators := Demo.world);
  add_item := add_item (Collaborators := Demo.world);
  writeString := writeString (Collaborators := Demo.world);
  prettify := prettify (Collaborators := Demo.world)
|}.

End Dateless.

(** * Properties *)

(** ** The store *)

Lemma deref_store_eq l d st : deref (store l d st) l = d.
Proof. unfold deref, store; simpl. apply lookup_total_insert_eq. Qed.

Lemma deref_store_ne l l' d st : l ≠ l' → deref (store l d st) l' = deref st l'.
Proof. intros Hne. unfold deref, store; simpl. by apply lookup_total_insert_ne. Qed.

Lemma store_store l d d' st : store l d (store l d' st) = store l d st.
Proof. unfold store; simpl. by rewrite insert_insert_eq. Qed.

Lemma fresh_loc_new st : heap st !! fresh (dom (heap st)) = None.
Proof. apply not_elem_of_dom, is_fresh. Qed.

Lemma fresh_loc_ne st F : is_Some (heap st !! F) → fresh (dom (heap st)) ≠ F.
Proof. intros [d Hd] Heq. rewrite <- Heq, fresh_loc_new in Hd. discriminate. Qed.

Lemma M_bind_unfold {A B} (m : M A) (f : A → M B) st :
  (m ≫= f) st =
    match m st with
    | (Ok a, st') => f a st'
    | (Err e, st') => (Err e, st')
    end.
Proof. reflexivity. Qed.

(** ** Field filters *)

Section FieldFilter.
Context {RE : Regex}.

Lemma re_search_spec p s :
  re_search p s = true ↔
  ∃ i j : nat, (i ≤ j ≤ String.length s)%nat ∧ re_span p s i j = true.
Proof.
  unfold re_search. rewrite existsb_exists. split.
  - intros (i & Hi & Hex). apply existsb_exists in Hex as (j & Hj & Hs).
    apply in_seq in Hi, Hj. exists i, j. split; [lia | done].
  - intros (i & j & Hij & Hs). exists i. split; [apply in_seq; lia |].
    apply existsb_exists. exists j. split; [apply in_seq; lia | done].
Qed.

Lemma field_matches_str p key e s :
  Py.getitem e key = Ok (VStr s) → field_matches p key e = re_search p s.
Proof. intros Hs. unfold field_matches. by rewrite Hs. Qed.

Lemma fil_loop_ok p key items acc :
  Forall (has_str key) items →
  fil_loop p key items acc = Ok (acc ++ filter (field_matches p key) items).
Proof.
  intros Hall. revert acc. induction Hall as [| e items [s Hs] _ IH]; intros acc.
  - by rewrite app_nil_r.
  - rewrite filter_cons. cbn [fil_loop]. rewrite Hs.
    cbn [mbind result_bind search]. rewrite IH.
    rewrite (field_matches_str p key e s Hs).
    destruct (re_search p s); cbn [Is_true].
    + rewrite decide_True by done. by rewrite <- app_assoc.
    + by rewrite decide_False by tauto.
Qed.

(** The loop returns only when every entry has a string under the key. *)
Lemma fil_loop_Ok_inv p key items acc r :
  fil_loop p key items acc = Ok r → Forall (has_str key) items.
Proof.
  revert acc. induction items as [| e items IH]; intros acc Hr; [constructor |].
  cbn [fil_loop] in Hr.
  destruct (Py.getitem e key) as [v |] eqn:Hv; [| discriminate].
  destruct v; try discriminate. cbn in Hr.
  constructor; [by eexists | by eapply IH].
Qed.

Lemma fil_loop_raises p key pre e post acc err :
  Forall (has_str key) pre →
  Py.getitem e key = Err err →
  fil_loop p key (pre ++ e :: post) acc = Err err.
Proof.
  intros Hpre He. revert acc. induction Hpre as [| x pre [s Hs] _ IH]; intros acc.
  - cbn. by rewrite He.
  - cbn [app fil_loop]. rewrite Hs. cbn [mbind result_bind search]. apply IH.
Qed.

Lemma fil_loop_fails p key items e acc err :
  e ∈ items → Py.getitem e key = Err err →
  ∃ err', fil_loop p key items acc = Err err'.
Proof.
  intros Hin He. destruct (fil_loop p key items acc) as [r |] eqn:Hr; [| by eexists].
  apply fil_loop_Ok_inv in Hr. rewrite Forall_forall in Hr.
  destruct (Hr e Hin) as [s Hs]. congruence.
Qed.

Lemma fil_unfold p key F st :
  fil p key F st =
    match deref st F !! "entries" with
    | None => (Err (KeyError "entries"), st)
    | Some ev =>
        match Py.iter ev with
        | Err e => (Err e, st)
        | Ok items =>
            match fil_loop p key items [] with
            | Ok nufeed =>
                (Ok F, store F (<["entries" := VList nufeed]> (deref st F)) st)
            | Err e => (Err e, st)
            end
        end
    end.
Proof.
  unfold fil, obj_getitem, obj_setitem, lift, mbind, M_bind, mret, M_ret.
  destruct (deref st F !! "entries") as [ev |]; [| done]. cbn.
  destruct (Py.iter ev) as [items |]; [| done].
  by destruct (fil_loop p key items []).
Qed.

Lemma fil_loop_again p key items nufeed :
  fil_loop p key items [] = Ok nufeed → fil_loop p key nufeed [] = Ok nufeed.
Proof.
  intros Hr. pose proof (fil_loop_Ok_inv _ _ _ _ _ Hr) as Hall.
  rewrite (fil_loop_ok _ _ _ _ Hall) in Hr. injection Hr as <-. cbn [app].
  rewrite fil_loop_ok.
  - cbn [app]. f_equal. by apply list_filter_filter_l.
  - rewrite Forall_forall in Hall. apply Forall_forall. intros e He.
    apply list_elem_of_filter in He as [_ He]. by apply Hall.
Qed.

Lemma fil_twice p key F st :
  AND_filter (fil p key) (fil p key) F st = fil p key F st.
Proof.
  unfold AND_filter. rewrite M_bind_unfold, fil_unfold.
  destruct (deref st F !! "entries") as [ev |] eqn:Hev; [| done].
  destruct (Py.iter ev) as [items |] eqn:Hit; [| done].
  destruct (fil_loop p key items []) as [nufeed |] eqn:Hl; [| done].
  rewrite fil_unfold, deref_store_eq, lookup_insert_eq. cbn [Py.iter].
  rewrite (fil_loop_again _ _ _ _ Hl).
  by rewrite insert_insert_eq, store_store.
Qed.

End FieldFilter.

(** ** Results *)

Lemma result_mapM_length {A B} (f : A → result B) l r :
  result_mapM f l = Ok r → length r = length l.
Proof.
  revert r. induction l as [| x l IH]; intros r Hr; cbn in Hr.
  - by injection Hr as <-.
  - destruct (f x); [| discriminate]. cbn in Hr.
    destruct (result_mapM f l) as [ys |]; [| discriminate].
    injection Hr as <-. cbn. f_equal. by apply IH.
Qed.

Lemma result_mapM_Forall {A B} (f : A → result B) (g : A → B) l :
  Forall (λ x, f x = Ok (g x)) l → result_mapM f l = Ok (g <$> l).
Proof.
  induction 1 as [| x l Hx _ IH]; [done |]. cbn. by rewrite Hx, IH.
Qed.

(** ** Links and dates of entries *)

Lemma link_key_Some e h :
  link_key e = Some h ↔ ∃ v, Py.getitem e "link" = Ok v ∧ Py.hash v = Ok h.
Proof.
  unfold link_key. split.
  - destruct (Py.getitem e "link") as [v |]; [| done].
    destruct (Py.hash v) eqn:Hh; [| done]. intros [= <-]. eauto.
  - intros (v & -> & ->). done.
Qed.

Lemma pubdate_of_Some e t :
  pubdate_of e = Some t ↔ Py.getitem e "pubdate" = Ok (VDatetime t).
Proof.
  unfold pubdate_of. split.
  - destruct (Py.getitem e "pubdate") as [[] |]; try done. by intros [= <-].
  - by intros ->.
Qed.

Lemma entry_ok_spec e :
  entry_ok e = true ↔ is_Some (link_key e) ∧ is_Some (pubdate_of e).
Proof.
  unfold entry_ok. rewrite andb_true_iff, !bool_decide_eq_true. done.
Qed.

Lemma pubdate_key e :
  is_Some (pubdate_of e) → Py.getitem e "pubdate" = Ok (VDatetime (stamp e)).
Proof.
  intros [t Ht]. unfold stamp. rewrite Ht. cbn. by apply pubdate_of_Some.
Qed.

(** ** Deduplication *)

Lemma keep_first_filter (P : value → Prop) `{!∀ x, Decision (P x)} l :
  (∀ x y, link_key x = link_key y → P x → P y) →
  filter P (keep_first l) = keep_first (filter P l).
Proof.
  intros HP. induction l as [| x l IH]; [done |].
  cbn [keep_first]. rewrite !filter_cons. destruct (decide (P x)) as [Hx | Hx].
  - cbn [keep_first]. f_equal. rewrite <- IH.
    rewrite !list_filter_filter. apply list_filter_iff. tauto.
  - rewrite <- IH. apply list_filter_filter_l.
    intros y Hy Heq. apply Hx. by apply (HP y x).
Qed.

Lemma elem_of_keep_first e l :
  e ∈ keep_first l ↔
  ∃ n : nat, l !! n = Some e ∧
    ∀ (m : nat) e', (m < n)%nat → l !! m = Some e' → link_key e' ≠ link_key e.
Proof.
  revert e. induction l as [| x l IH]; intros e; cbn [keep_first].
  - split; [by intros ?%elem_of_nil | by intros (n & ? & _)].
  - rewrite elem_of_cons, list_elem_of_filter, IH. split.
    + intros [-> | (Hne & n & Hn & Hfirst)].
      * exists 0%nat. split; [done |]. intros; lia.
      * exists (S n). split; [done |]. intros [| m] e' Hm He'.
        -- injection He' as <-. congruence.
        -- apply (Hfirst m); [lia | done].
    + intros ([| n] & Hn & Hfirst).
      * left. by injection Hn as <-.
      * right. split.
        -- intros Heq. apply (Hfirst 0%nat x); [lia | done | done].
        -- exists n. split; [done |]. intros m e' Hm He'.
           apply (Hfirst (S m)); [lia | done].
Qed.

Lemma keep_first_subseteq l : keep_first l ⊆ l.
Proof.
  intros e (n & Hn & _)%elem_of_keep_first. by eapply list_elem_of_lookup_2.
Qed.

Lemma keep_first_NoDup l : NoDup (link_key <$> keep_first l).
Proof.
  induction l as [| x l IH]; cbn [keep_first fmap list_fmap]; [constructor |].
  constructor.
  - intros (y & Hy & Hin)%list_elem_of_fmap.
    apply list_elem_of_filter in Hin as [Hne _]. congruence.
  - change (NoDup (link_key <$> filter (λ y, link_key y ≠ link_key x) (keep_first l))).
    eapply sublist_NoDup; [exact IH |]. apply fmap_sublist, sublist_filter.
Qed.

Lemma unseen_union (seen : gset hkey) h e :
  unseen (seen ∪ {[h]}) e ↔ link_key e ≠ Some h ∧ unseen seen e.
Proof.
  unfold unseen. destruct (link_key e) as [h' |]; [| naive_solver].
  rewrite not_elem_of_union, not_elem_of_singleton. naive_solver.
Qed.

Lemma or_loop_spec items entries seen :
  Forall (λ e, is_Some (link_key e)) items →
  or_loop items entries seen =
    Ok (entries ++ keep_first (filter (unseen seen) items),
        seen ∪ list_to_set (omap link_key items)).
Proof.
  intros Hall. revert entries seen.
  induction Hall as [| i items [h Hh] _ IH]; intros entries seen.
  - cbn. rewrite app_nil_r. f_equal. f_equal. set_solver.
  - pose proof Hh as (v & Hv & Hhash)%link_key_Some.
    cbn [or_loop omap list_omap]. rewrite Hv. cbn [mbind result_bind].
    rewrite Hhash, Hh. cbn [mbind result_bind]. rewrite filter_cons.
    case_bool_decide as Hin.
    + rewrite IH. rewrite decide_False by (unfold unseen; rewrite Hh; tauto).
      f_equal. f_equal. set_solver.
    + rewrite IH. rewrite decide_True by (unfold unseen; by rewrite Hh).
      cbn [keep_first]. rewrite <- app_assoc. cbn [app]. f_equal. f_equal.
      * f_equal. rewrite Hh.
        rewrite keep_first_filter by congruence.
        rewrite list_filter_filter. do 2 f_equal. apply list_filter_iff.
        intros y. apply unseen_union.
      * set_solver.
Qed.

(** The loop keeps the entry list and the set of links at one size,
    whatever the items are. *)
Lemma or_loop_count items entries seen entries' seen' :
  or_loop items entries seen = Ok (entries', seen') →
  length entries = size seen → length entries' = size seen'.
Proof.
  revert entries seen. induction items as [| i items IH]; intros entries seen Hr Hlen.
  - cbn in Hr. congruence.
  - cbn [or_loop] in Hr.
    destruct (Py.getitem i "link") as [v |]; [| discriminate]. cbn in Hr.
    destruct (Py.hash v) as [h |]; [| discriminate]. cbn in Hr.
    case_bool_decide as Hin.
    + by eapply IH.
    + eapply IH; [exact Hr |].
      rewrite length_app, size_union by set_solver.
      rewrite size_singleton. cbn. lia.
Qed.

(** ** Sorting *)

Lemma filter_iff_elem_of {A} (P Q : A → Prop)
    `{!∀ x, Decision (P x), !∀ x, Decision (Q x)} (l : list A) :
  (∀ x, x ∈ l → P x ↔ Q x) → filter P l = filter Q l.
Proof.
  induction l as [| x l IH]; intros HPQ; [done |]. rewrite !filter_cons.
  rewrite IH by (intros y Hy; apply HPQ; by right).
  destruct (decide (P x)) as [HP | HP], (decide (Q x)) as [HQ | HQ]; try done.
  - destruct HQ. apply HPQ; [by left | done].
  - destruct HP. apply HPQ; [by left | done].
Qed.

(** Whatever the keys are, a sort that returns has permuted its input. *)
Lemma sort_insert_Permutation k x l l' :
  sort_insert k x l = Ok l' → l' ≡ₚ (k, x) :: l.
Proof.
  revert l'. induction l as [| [k' y] l IH]; intros l' Hr; cbn [sort_insert] in Hr.
  - by injection Hr as <-.
  - destruct (Py.lt k' k) as [[] |]; cbn in Hr; [| | discriminate].
    + destruct (sort_insert k x l) as [l'' |]; [| discriminate].
      cbn in Hr. injection Hr as <-. rewrite (IH l'' eq_refl). apply Permutation_swap.
    + by injection Hr as <-.
Qed.

Lemma sort_keyed_Permutation l l' : sort_keyed l = Ok l' → l' ≡ₚ l.
Proof.
  revert l'. induction l as [| [k x] l IH]; intros l' Hr; cbn [sort_keyed] in Hr.
  - by injection Hr as <-.
  - destruct (sort_keyed l) as [l'' |]; [| discriminate]. cbn in Hr.
    rewrite (sort_insert_Permutation _ _ _ _ Hr). by rewrite (IH l'' eq_refl).
Qed.

Lemma list_sort_Permutation key l out : list_sort key l = Ok out → out ≡ₚ l.
Proof.
  unfold list_sort. intros Hr.
  destruct (result_mapM key l) as [keys |] eqn:Hk; [| discriminate]. cbn in Hr.
  destruct (sort_keyed (zip keys l)) as [sorted |] eqn:Hs; [| discriminate].
  cbn in Hr. injection Hr as <-.
  rewrite (sort_keyed_Permutation _ _ Hs). apply result_mapM_length in Hk.
  rewrite snd_zip by lia. done.
Qed.

(** On dated entries the sort is the insertion sort on the dates. *)
Lemma sort_insert_keyed x l :
  sort_insert (VDatetime (stamp x)) x (keyed l) = Ok (keyed (insert_entry x l)).
Proof.
  induction l as [| y l IH]; [done |].
  cbn [keyed fmap list_fmap sort_insert insert_entry Py.lt mbind result_bind].
  destruct (stamp y <? stamp x); [| done].
  fold (keyed l). by rewrite IH.
Qed.

Lemma sort_keyed_keyed l : sort_keyed (keyed l) = Ok (keyed (isort l)).
Proof.
  induction l as [| x l IH]; [done |].
  cbn [keyed fmap list_fmap sort_keyed isort]. fold (keyed l).
  rewrite IH. cbn [mbind result_bind]. apply sort_insert_keyed.
Qed.

Lemma zip_keyed (l : list value) :
  zip ((λ e, VDatetime (stamp e)) <$> l) l = keyed l.
Proof. induction l as [| x l IH]; [done |]. cbn. by rewrite IH. Qed.

Lemma snd_keyed l : snd <$> keyed l = l.
Proof.
  unfold keyed. rewrite <- list_fmap_compose. induction l as [| x l IH]; [done |].
  cbn. by rewrite IH.
Qed.

Lemma list_sort_dated l :
  Forall (λ e, is_Some (pubdate_of e)) l →
  list_sort (λ i, Py.getitem i "pubdate") l = Ok (isort l).
Proof.
  intros Hall. unfold list_sort.
  rewrite (result_mapM_Forall _ (λ e, VDatetime (stamp e))).
  - cbn [mbind result_bind]. rewrite zip_keyed, sort_keyed_keyed.
    cbn [mbind result_bind]. by rewrite snd_keyed.
  - eapply Forall_impl; [exact Hall |]. intros e He. by apply pubdate_key.
Qed.

Lemma insert_entry_Permutation x l : insert_entry x l ≡ₚ x :: l.
Proof.
  induction l as [| y l IH]; [done |]. cbn [insert_entry].
  destruct (stamp y <? stamp x); [| done]. rewrite IH. apply Permutation_swap.
Qed.

Lemma isort_Permutation l : isort l ≡ₚ l.
Proof.
  induction l as [| x l IH]; [done |]. cbn [isort].
  by rewrite insert_entry_Permutation, IH.
Qed.

Lemma insert_entry_sorted x l :
  StronglySorted stamp_le l → StronglySorted stamp_le (insert_entry x l).
Proof.
  induction 1 as [| y l Hl IH Hy]; cbn [insert_entry].
  - repeat constructor.
  - destruct (stamp y <? stamp x) eqn:Hlt.
    + apply Z.ltb_lt in Hlt. constructor; [done |].
      rewrite insert_entry_Permutation. constructor; [unfold stamp_le; lia | done].
    + apply Z.ltb_ge in Hlt. constructor; [by constructor |].
      constructor; [done |]. eapply Forall_impl; [exact Hy |].
      unfold stamp_le. intros; lia.
Qed.

Lemma isort_sorted l : StronglySorted stamp_le (isort l).
Proof.
  induction l as [| x l IH]; [constructor |]. by apply insert_entry_sorted.
Qed.

(** Entries of one date keep their order. *)
Lemma insert_entry_stable t x l :
  filter (λ e, stamp e = t) (insert_entry x l) = filter (λ e, stamp e = t) (x :: l).
Proof.
  induction l as [| y l IH]; [done |]. cbn [insert_entry].
  destruct (stamp y <? stamp x) eqn:Hlt; [| done].
  apply Z.ltb_lt in Hlt. rewrite filter_cons, IH, !filter_cons.
  destruct (decide (stamp y = t)), (decide (stamp x = t)); try done. lia.
Qed.

Lemma isort_stable t l :
  filter (λ e, stamp e = t) (isort l) = filter (λ e, stamp e = t) l.
Proof.
  induction l as [| x l IH]; [done |]. cbn [isort].
  by rewrite insert_entry_stable, !filter_cons, IH.
Qed.

Lemma isort_sorted_by_pubdate l :
  Forall (λ e, is_Some (pubdate_of e)) l → sorted_by_pubdate l (isort l).
Proof.
  intros Hall. split; [apply isort_Permutation |].
  assert (Hall' : Forall (λ e, is_Some (pubdate_of e)) (isort l))
    by (by rewrite isort_Permutation).
  assert (Hst : ∀ e t, is_Some (pubdate_of e) → pubdate_of e = Some t ↔ stamp e = t).
  { intros e t [u Hu]. unfold stamp. rewrite Hu. cbn. naive_solver. }
  split.
  - pose proof (isort_sorted l) as Hs. induction Hs as [| x k Hk IH Hx]; [constructor |].
    apply Forall_cons in Hall' as [[tx Htx] Hall']. constructor; [by apply IH |].
    rewrite Forall_forall in Hx, Hall'. apply Forall_forall. intros y Hy.
    destruct (Hall' y Hy) as [ty Hty]. specialize (Hx y Hy).
    unfold stamp_le, stamp in Hx. unfold pub_le. rewrite Htx, Hty in *. done.
  - intros t. rewrite Forall_forall in Hall, Hall'.
    rewrite (filter_iff_elem_of _ (λ e, stamp e = t) (isort l)).
    + rewrite isort_stable. symmetry. apply filter_iff_elem_of.
      intros e He. apply Hst, Hall, He.
    + intros e He. apply Hst, Hall', He.
Qed.

(** ** Which exceptions the pure steps raise *)

Lemma ordinary_bind {A B} (r : result A) (f : A → result B) :
  ordinary_result r → (∀ a, r = Ok a → ordinary_result (f a)) →
  ordinary_result (r ≫= f).
Proof. destruct r; cbn; auto. Qed.

Lemma ordinary_of_option {A} e (o : option A) :
  ordinary e = true → ordinary_result (of_option e o).
Proof. by destruct o. Qed.

Lemma ordinary_mapM {A B} (f : A → result B) l :
  (∀ x, ordinary_result (f x)) → ordinary_result (result_mapM f l).
Proof.
  intros Hf. induction l as [| x l IH]; [done |]. cbn [result_mapM].
  apply ordinary_bind; [done |]. intros y _.
  apply ordinary_bind; [done |]. done.
Qed.

Lemma ordinary_getitem v k : ordinary_result (Py.getitem v k).
Proof. destruct v; try done; apply ordinary_of_option; done. Qed.

Lemma ordinary_get v k : ordinary_result (Py.get v k).
Proof. by destruct v. Qed.

Lemma ordinary_setitem v k x : ordinary_result (Py.setitem v k x).
Proof. by destruct v. Qed.


Lemma ordinary_iter v : ordinary_result (Py.iter v).
Proof. by destruct v. Qed.

Lemma ordinary_iter_add a b : ordinary_result (Py.iter_add a b).
Proof. by destruct a, b. Qed.

Lemma ordinary_dict v : ordinary_result (Py.dict v).
Proof. destruct v as [| s | | | | [] | |]; try done. cbn. by destruct (String.eqb s ""). Qed.


Lemma ordinary_hash v : ordinary_result (Py.hash v).
Proof. by destruct v. Qed.

Lemma ordinary_lt a b : ordinary_result (Py.lt a b).
Proof. by destruct a, b. Qed.


Lemma ordinary_or_loop items entries seen :
  ordinary_result (or_loop items entries seen).
Proof.
  revert entries seen. induction items as [| i items IH]; intros entries seen; [done |].
  cbn [or_loop]. apply ordinary_bind; [apply ordinary_getitem |]. intros v _.
  apply ordinary_bind; [apply ordinary_hash |]. intros h _.
  case_bool_decide; apply IH.
Qed.

Lemma ordinary_sort_insert k x l : ordinary_result (sort_insert k x l).
Proof.
  induction l as [| [k' y] l IH]; [done |]. cbn [sort_insert].
  apply ordinary_bind; [apply ordinary_lt |]. intros [] _; [| done].
  apply ordinary_bind; [done |]. done.
Qed.

Lemma ordinary_sort_keyed l : ordinary_result (sort_keyed l).
Proof.
  induction l as [| [k x] l IH]; [done |]. cbn [sort_keyed].
  apply ordinary_bind; [done |]. intros; apply ordinary_sort_insert.
Qed.

Lemma ordinary_list_sort key l :
  (∀ x, ordinary_result (key x)) → ordinary_result (list_sort key l).
Proof.
  intros Hk. unfold list_sort. apply ordinary_bind; [by apply ordinary_mapM |].
  intros keys _. apply ordinary_bind; [apply ordinary_sort_keyed |]. done.
Qed.

Lemma ordinary_not_assertion {A} (r : result A) :
  ordinary_result r → raises_assertion r = false.
Proof. destruct r as [| []]; cbn; congruence. Qed.

Lemma ordinary_not_filter_error {A} (r : result A) :
  ordinary_result r → raises_filter_error r = false.
Proof. destruct r as [| []]; cbn; congruence. Qed.

(** ** The merge of [OR_filter] *)

Lemma filter_unseen_empty (items : list value) : filter (unseen ∅) items = items.
Proof.
  induction items as [| i items IH]; [done |]. rewrite filter_cons, IH.
  rewrite decide_True; [done |]. unfold unseen. destruct (link_key i); set_solver.
Qed.

(** The assertion of line 138 holds whenever it is reached. *)
Lemma or_merge_asserts_nothing items : raises_assertion (or_merge items) = false.
Proof.
  unfold or_merge.
  destruct (or_loop items [] ∅) as [[entries seen] |] eqn:Hloop.
  - cbn [mbind result_bind].
    destruct (list_sort _ entries) as [sorted |] eqn:Hsort.
    + cbn [mbind result_bind].
      rewrite bool_decide_eq_true_2; [done |].
      rewrite (list_sort_Permutation _ _ _ Hsort).
      by apply (or_loop_count _ _ _ _ _ Hloop).
    + pose proof (ordinary_list_sort (λ i, Py.getitem i "pubdate") entries
                    (λ x, ordinary_getitem x "pubdate")) as Hord.
      rewrite Hsort in Hord. by apply (ordinary_not_assertion (Err e)).
  - pose proof (ordinary_or_loop items [] ∅) as Hord.
    rewrite Hloop in Hord. by apply (ordinary_not_assertion (Err e)).
Qed.

Lemma or_merge_ok items :
  Forall (λ e, entry_ok e = true) items →
  or_merge items = Ok (isort (keep_first items)).
Proof.
  intros Hall. pose proof (or_merge_asserts_nothing items) as Hassert.
  unfold or_merge in *. rewrite or_loop_spec in *.
  2, 3: eapply Forall_impl; [exact Hall |]; by intros e [? _]%entry_ok_spec.
  cbn [mbind result_bind app] in *. rewrite filter_unseen_empty in *.
  rewrite list_sort_dated in *.
  2, 3: apply Forall_forall; intros e He%keep_first_subseteq;
    rewrite Forall_forall in Hall; by apply entry_ok_spec, Hall.
  cbn [mbind result_bind] in *. by case_bool_decide.
Qed.

Lemma OR_filter_unfold filter1 filter2 F st :
  OR_filter filter1 filter2 F st =
    match filter1 (fresh (dom (heap st)))
                  (store (fresh (dom (heap st))) (deref st F) st) with
    | (Err e, st1) => (Err e, st1)
    | (Ok filtered1, st1) =>
        match filter2 F st1 with
        | (Err e, st2) => (Err e, st2)
        | (Ok filtered2, st2) =>
            match deref st2 filtered1 !! "entries", deref st2 filtered2 !! "entries" with
            | None, _ | Some _, None => (Err (KeyError "entries"), st2)
            | Some entries1, Some entries2 =>
                match Py.iter_add entries1 entries2 ≫= or_merge with
                | Err e => (Err e, st2)
                | Ok entries =>
                    (Ok F, store F (<["entries" := VList entries]> (deref st2 F)) st2)
                end
            end
        end
    end.
Proof.
  unfold OR_filter, deepcopy, alloc, obj_getitem, obj_setitem, lift, mbind at 1 2 3 4 5 6 7 8,
    M_bind, mret, M_ret.
  destruct (filter1 _ _) as [[filtered1 |] st1]; [| done].
  destruct (filter2 F st1) as [[filtered2 |] st2]; [| done].
  destruct (deref st2 filtered1 !! "entries") as [entries1 |]; [| done]. cbn.
  destruct (deref st2 filtered2 !! "entries") as [entries2 |]; [| done]. cbn.
  destruct (Py.iter_add entries1 entries2) as [items |]; [| done]. cbn.
  by destruct (or_merge items).
Qed.

Lemma OR_filter_run filter1 filter2 F st filtered1 st1 filtered2 st2 es1 es2 :
  filter1 (fresh (dom (heap st))) (store (fresh (dom (heap st))) (deref st F) st)
    = (Ok filtered1, st1) →
  filter2 F st1 = (Ok filtered2, st2) →
  deref st2 filtered1 !! "entries" = Some (VList es1) →
  deref st2 filtered2 !! "entries" = Some (VList es2) →
  Forall (λ e, entry_ok e = true) (es1 ++ es2) →
  OR_filter filter1 filter2 F st =
    (Ok F, store F (<["entries" := VList (isort (keep_first (es1 ++ es2)))]>
                      (deref st2 F)) st2).
Proof.
  intros H1 H2 He1 He2 Hall. rewrite OR_filter_unfold, H1, H2, He1, He2.
  cbn [Py.iter_add mbind result_bind]. by rewrite or_merge_ok.
Qed.

(** ** Normalisation *)

Lemma result_mapM_Ok_inv {A B} (f : A → result B) l r :
  result_mapM f l = Ok r → Forall2 (λ x y, f x = Ok y) l r.
Proof.
  revert r. induction l as [| x l IH]; intros r Hr; cbn in Hr.
  - injection Hr as <-. constructor.
  - destruct (f x) as [y |] eqn:Hy; [| discriminate]. cbn in Hr.
    destruct (result_mapM f l) as [ys |]; [| discriminate].
    injection Hr as <-. constructor; [done | by apply IH].
Qed.

Lemma result_mapM_Forall_r {A B} (f : A → result B) (P : B → Prop) l r :
  result_mapM f l = Ok r → (∀ x y, f x = Ok y → P y) → Forall P r.
Proof.
  intros Hr%result_mapM_Ok_inv HP.
  induction Hr as [| x y l r Hxy _ IH]; constructor; eauto.
Qed.

Lemma cast_items_plain m : plain m → cast_items m = m.
Proof.
  intros Hm. apply map_eq. intros k. unfold cast_items. rewrite lookup_fmap.
  destruct (m !! k) as [v |] eqn:Hv; [| done]. cbn.
  specialize (Hm k v Hv). by destruct v.
Qed.

Lemma plain_cast_items m : plain (cast_items m).
Proof.
  intros k v. unfold cast_items. rewrite lookup_fmap.
  destruct (m !! k) as [w |]; [| done]. cbn. intros [= <-]. by destruct w.
Qed.

Lemma cast_normalized feed :
  normalized feed = true → _cast_feed_to_primitives feed = Ok feed.
Proof.
  unfold normalized. destruct feed as [| | | | | | top |]; try done.
  destruct (top !! "feed") as [[| | | | | | meta |] |] eqn:Hmeta; try done.
  destruct (top !! "entries") as [[| | | | | es | |] |] eqn:Hes; try done.
  intros [Hplain Hall]%andb_true_iff. apply bool_decide_eq_true in Hplain.
  unfold _cast_feed_to_primitives. cbn [Py.dict mbind result_bind].
  rewrite Hmeta. cbn [of_option Py.dict mbind result_bind].
  rewrite (cast_items_plain _ Hplain), (insert_id _ _ _ Hmeta), Hes.
  cbn [of_option Py.iter mbind result_bind].
  assert (Hmap : result_mapM (λ i, i ← Py.dict i; Ok (VDict (cast_items i))) es = Ok es).
  { clear Hes. induction es as [| e es IH]; [done |].
    cbn [forallb] in Hall. apply andb_true_iff in Hall as [He Hall].
    destruct e as [| | | | | | m |]; try done. apply bool_decide_eq_true in He.
    cbn [result_mapM Py.dict mbind result_bind].
    by rewrite (cast_items_plain _ He), (IH Hall). }
  rewrite Hmap. cbn [mbind result_bind]. by rewrite (insert_id _ _ _ Hes).
Qed.

Lemma normalized_cast feed feed' :
  _cast_feed_to_primitives feed = Ok feed' → normalized feed' = true.
Proof.
  unfold _cast_feed_to_primitives. intros Hr.
  destruct (Py.dict feed) as [top |]; [| discriminate]. cbn in Hr.
  destruct (top !! "feed") as [meta |]; [| discriminate]. cbn in Hr.
  destruct (Py.dict meta) as [m |]; [| discriminate]. cbn in Hr.
  rewrite lookup_insert_ne in Hr by done.
  destruct (top !! "entries") as [entries |]; [| discriminate]. cbn in Hr.
  destruct (Py.iter entries) as [items |]; [| discriminate]. cbn in Hr.
  destruct (result_mapM _ items) as [nuentries |] eqn:Hmap; [| discriminate].
  cbn in Hr. injection Hr as <-. unfold normalized.
  rewrite lookup_insert_ne, lookup_insert_eq, lookup_insert_eq by done.
  apply andb_true_iff. split; [apply bool_decide_eq_true, plain_cast_items |].
  apply forallb_forall. intros e He%list_elem_of_In. revert e He.
  apply Forall_forall. eapply (result_mapM_Forall_r _ _ _ _ Hmap). intros x y Hxy. cbn beta in Hxy.
  destruct (Py.dict x) as [d |]; [| discriminate]. cbn in Hxy.
  injection Hxy as <-. apply bool_decide_eq_true, plain_cast_items.
Qed.

Lemma ordinary_cast feed : ordinary_result (_cast_feed_to_primitives feed).
Proof.
  unfold _cast_feed_to_primitives.
  apply ordinary_bind; [apply ordinary_dict |]. intros top _.
  apply ordinary_bind; [by apply ordinary_of_option |]. intros meta _.
  apply ordinary_bind; [apply ordinary_dict |]. intros m _.
  apply ordinary_bind; [by apply ordinary_of_option |]. intros entries _.
  apply ordinary_bind; [apply ordinary_iter |]. intros items _.
  apply ordinary_bind; [| done]. apply ordinary_mapM. intros i.
  apply ordinary_bind; [apply ordinary_dict | done].
Qed.

(** ** Fetching *)

Section Fetch.
Context {CO : Collaborators}.

Lemma ordinary_add_pubdate i : ordinary_result (add_pubdate i).
Proof.
  unfold add_pubdate. apply ordinary_bind; [apply ordinary_get |]. intros pd _.
  destruct (Py.is_datetime pd); [done |].
  apply ordinary_bind; [apply ordinary_getitem |]. intros parsed _.
  destruct parsed; try done.
  apply ordinary_bind; [by apply ordinary_of_option |]. intros secs _.
  apply ordinary_bind; [by apply ordinary_of_option |]. intros stamp _.
  apply ordinary_setitem.
Qed.

(** After line 61 the entry carries a datetime. *)
Lemma add_pubdate_dated i i' : add_pubdate i = Ok i' → is_Some (pubdate_of i').
Proof.
  unfold add_pubdate. intros Hr.
  destruct (Py.get i "pubdate") as [pd |] eqn:Hpd; [| discriminate]. cbn in Hr.
  destruct (Py.is_datetime pd) eqn:Hdt.
  - injection Hr as <-. destruct pd; try discriminate.
    exists t. apply pubdate_of_Some.
    destruct i as [| | | | | | m | m]; try discriminate;
      cbn [Py.get] in Hpd; cbn [Py.getitem];
      (destruct (m !! "pubdate") as [v |]; cbn in Hpd;
       [injection Hpd as ->; done | discriminate]).
  - destruct (Py.getitem i "published_parsed") as [[] |]; try discriminate.
    cbn in Hr.
    destruct (time_mktime t) as [secs |]; [| discriminate]. cbn in Hr.
    destruct (datetime_fromtimestamp secs) as [stamp |]; [| discriminate].
    cbn in Hr. exists stamp. apply pubdate_of_Some.
    destruct i; try discriminate; cbn in Hr; injection Hr as <-; cbn;
      by rewrite lookup_insert_eq.
Qed.

Lemma fetch_unfold url st :
  fetch_and_prepare_feed url st =
    match prepare (feedparser_parse url) with
    | Ok f =>
        (Ok (fresh (dom (heap st))),
         store (fresh (dom (heap st))) f (State (heap st) (fetched st ++ [url])))
    | Err e => (Err e, State (heap st) (fetched st ++ [url]))
    end.
Proof.
  unfold fetch_and_prepare_feed, lift, alloc, mbind, M_bind.
  by destruct (prepare (feedparser_parse url)).
Qed.

(** When [prepare] raises [FeedFetchError], and that it raises nothing else
    of the module's own. *)
Lemma prepare_fetch_error f :
  prepare f = Err FeedFetchError ↔
  ∃ meta, Py.getitem f "feed" = Ok meta ∧
    (Py.truthy meta = false ∨
     ∃ s, Py.getitem f "status" = Ok (VInt s) ∧ ¬ (200 ≤ s < 300)).
Proof.
  unfold prepare. split.
  - pose proof (ordinary_getitem f "feed") as Hmeta.
    destruct (Py.getitem f "feed") as [meta |]; cbn [mbind result_bind].
    2: { intros [= ->]. done. }
    intros Hr. exists meta. split; [done |].
    destruct (Py.truthy meta); [right | by left]. cbn [negb] in Hr.
    pose proof (ordinary_getitem f "status") as Hstatus.
    destruct (Py.getitem f "status") as [status |]; cbn [mbind result_bind] in Hr.
    2: { injection Hr as ->. done. }
    destruct status; try discriminate. exists n. split; [done |].
    cbn [Py.int_in_range mbind result_bind] in Hr.
    destruct ((200 <=? n) && (n <? 300)) eqn:Hrange; [| lia].
    exfalso. cbn [negb] in Hr.
    pose proof (ordinary_cast f) as Hc.
    destruct (_cast_feed_to_primitives f) as [f' |]; cbn [mbind result_bind] in Hr.
    2: { injection Hr as ->. done. }
    pose proof (ordinary_getitem f' "entries") as He.
    destruct (Py.getitem f' "entries") as [entries |]; cbn [mbind result_bind] in Hr.
    2: { injection Hr as ->. done. }
    pose proof (ordinary_iter entries) as Hi.
    destruct (Py.iter entries) as [items |]; cbn [mbind result_bind] in Hr.
    2: { injection Hr as ->. done. }
    pose proof (ordinary_mapM add_pubdate items ordinary_add_pubdate) as Hm.
    destruct (result_mapM add_pubdate items) as [items' |]; cbn [mbind result_bind] in Hr.
    2: { injection Hr as ->. done. }
    pose proof (ordinary_dict f') as Hd.
    destruct (Py.dict f') as [d |]; cbn [mbind result_bind] in Hr; [discriminate |].
    injection Hr as ->. done.
  - intros (meta & -> & [Hfalse | (s & -> & Hs)]); cbn [mbind result_bind].
    + by rewrite Hfalse.
    + destruct (Py.truthy meta); [| done]. cbn [negb Py.int_in_range mbind result_bind].
      destruct ((200 <=? s) && (s <? 300)) eqn:Hrange; [lia | done].
Qed.

Lemma prepare_dated f d :
  prepare f = Ok d →
  ∃ es, d !! "entries" = Some (VList es) ∧ Forall (λ e, is_Some (pubdate_of e)) es.
Proof.
  unfold prepare. intros Hr.
  destruct (Py.getitem f "feed") as [meta |]; [| discriminate]. cbn in Hr.
  destruct (Py.truthy meta); [| discriminate]. cbn in Hr.
  destruct (Py.getitem f "status") as [status |]; [| discriminate]. cbn in Hr.
  destruct (Py.int_in_range 200 300 status) as [[] |]; try discriminate. cbn in Hr.
  destruct (_cast_feed_to_primitives f) as [f' |]; [| discriminate]. cbn in Hr.
  destruct (Py.getitem f' "entries") as [entries |]; [| discriminate]. cbn in Hr.
  destruct (Py.iter entries) as [items |]; [| discriminate]. cbn in Hr.
  destruct (result_mapM add_pubdate items) as [items' |] eqn:Hmap; [| discriminate].
  cbn in Hr. destruct (Py.dict f') as [d' |]; [| discriminate]. cbn in Hr.
  injection Hr as <-. exists items'. split; [apply lookup_insert_eq |].
  eapply (result_mapM_Forall_r _ _ _ _ Hmap). intros x y Hxy.
  by eapply add_pubdate_dated.
Qed.

End Fetch.

(** ** The shape of a parsed feed *)

Lemma lookup_cast_items m k : cast_items m !! k = plain_value <$> m !! k.
Proof. unfold cast_items. by rewrite lookup_fmap. Qed.

Lemma dict_as_map v m : as_map v = Some m → Py.dict v = Ok m.
Proof. destruct v; try discriminate; by intros [= ->]. Qed.

(** The cast of a feed of the shape feedparser returns. *)
Lemma cast_shape feed top metav meta es :
  Py.dict feed = Ok top →
  top !! "feed" = Some metav → Py.dict metav = Ok meta →
  top !! "entries" = Some (VList es) →
  Forall (λ e, is_Some (as_map e)) es →
  _cast_feed_to_primitives feed =
    Ok (VDict (<["entries" :=
                 VList ((λ e, VDict (cast_items (default ∅ (as_map e)))) <$> es)]>
                 (<["feed" := VDict (cast_items meta)]> top))).
Proof.
  intros Htop Hmeta Hdict Hes Hall. unfold _cast_feed_to_primitives.
  rewrite Htop. cbn [mbind result_bind]. rewrite Hmeta. cbn [of_option mbind result_bind].
  rewrite Hdict. cbn [mbind result_bind]. rewrite lookup_insert_ne, Hes by done.
  cbn [of_option Py.iter mbind result_bind].
  rewrite (result_mapM_Forall _ (λ e, VDict (cast_items (default ∅ (as_map e))))).
  - done.
  - eapply Forall_impl; [exact Hall |]. intros e [m Hm]. cbn beta.
    by rewrite (dict_as_map _ _ Hm), Hm.
Qed.

Section FetchShape.
Context {CO : Collaborators}.

Lemma fetch_raises url st e :
  prepare (feedparser_parse url) = Err e →
  fetch_and_prepare_feed url st = (Err e, logged url st).
Proof. intros Hp. by rewrite fetch_unfold, Hp. Qed.

Lemma prepare_shape f top metav meta es :
  as_map f = Some top →
  top !! "feed" = Some metav → as_map metav = Some meta →
  top !! "entries" = Some (VList es) →
  Forall (λ e, is_Some (as_map e)) es →
  prepare f =
    if negb (Py.truthy metav) then Err FeedFetchError
    else
      status ← Py.getitem f "status";
      ok ← Py.int_in_range 200 300 status;
      if negb ok then Err FeedFetchError
      else
        items ← result_mapM add_pubdate
                  ((λ e, VDict (cast_items (default ∅ (as_map e)))) <$> es);
        Ok (<["entries" := VList items]> (<["feed" := VDict (cast_items meta)]> top)).
Proof.
  intros Htop Hmeta Hm Hes Hall. unfold prepare.
  assert (Hf : Py.getitem f "feed" = Ok metav).
  { destruct f; try discriminate; injection Htop as ->; cbn; by rewrite Hmeta. }
  rewrite Hf. cbn [mbind result_bind]. destruct (Py.truthy metav); [| done]. cbn [negb].
  destruct (Py.getitem f "status") as [status |]; [| done]. cbn [mbind result_bind].
  destruct (Py.int_in_range 200 300 status) as [[] |]; try done.
  cbn [mbind result_bind negb].
  rewrite (cast_shape f top metav meta es); try done.
  2, 3: by apply dict_as_map.
  cbn [mbind result_bind Py.getitem]. rewrite lookup_insert_eq.
  cbn [of_option mbind result_bind Py.iter].
  destruct (result_mapM add_pubdate _) as [items |]; [| done].
  cbn [mbind result_bind Py.dict]. by rewrite insert_insert_eq.
Qed.

Lemma as_map_getitem e m k : as_map e = Some m → Py.getitem e k = of_option (KeyError k) (m !! k).
Proof. destruct e; try discriminate; by intros [= ->]. Qed.

Lemma as_map_get e m k : as_map e = Some m → Py.get e k = Ok (default VNone (m !! k)).
Proof. destruct e; try discriminate; by intros [= ->]. Qed.

(** What line 60-61 does to an entry that is a plain dict. *)
Lemma add_pubdate_VDict m :
  add_pubdate (VDict m) =
    match m !! "pubdate" with
    | Some (VDatetime t) => Ok (VDict m)
    | _ =>
        match m !! "published_parsed" with
        | None => Err (KeyError "published_parsed")
        | Some (VStructTime t) =>
            secs ← of_option OverflowError (time_mktime t);
            stamp ← of_option OverflowError (datetime_fromtimestamp secs);
            Ok (VDict (<["pubdate" := VDatetime stamp]> m))
        | Some _ => Err TypeError
        end
    end.
Proof.
  unfold add_pubdate. cbn [Py.get mbind result_bind Py.getitem].
  destruct (m !! "pubdate") as [[] |]; cbn [default Py.is_datetime]; try done;
    destruct (m !! "published_parsed") as [[] |]; done.
Qed.

Lemma datable_cast e :
  datable e ↔ is_Some (as_map e) ∧
    ∃ i', add_pubdate (VDict (cast_items (default ∅ (as_map e)))) = Ok i'.
Proof.
  unfold datable. split.
  - intros (m & Hm & Hdate). split; [by eexists |]. rewrite Hm.
    change (default ∅ (Some m)) with m.
    rewrite add_pubdate_VDict, !lookup_cast_items.
    destruct Hdate as [[t Ht] | (t & secs & stamp & Ht & Hsecs & Hstamp)].
    + rewrite Ht. cbn. by eexists.
    + rewrite Ht. cbn. rewrite Hsecs. cbn. rewrite Hstamp. cbn.
      destruct (m !! "pubdate") as [[] |]; cbn; by eexists.
  - intros [[m Hm] [i' Hi]]. exists m. split; [done |]. rewrite Hm in Hi.
    change (default ∅ (Some m)) with m in Hi. rewrite add_pubdate_VDict, !lookup_cast_items in Hi.
    assert (Hparsed : (∃ t, m !! "pubdate" = Some (VDatetime t)) ∨
              ∃ i'', match plain_value <$> m !! "published_parsed" with
                     | None => Err (KeyError "published_parsed")
                     | Some (VStructTime t) =>
                         secs ← of_option OverflowError (time_mktime t);
                         stamp ← of_option OverflowError (datetime_fromtimestamp secs);
                         Ok (VDict (<["pubdate" := VDatetime stamp]> (cast_items m)))
                     | Some _ => Err TypeError
                     end = Ok i'').
    { destruct (m !! "pubdate") as [[] |]; cbn in Hi;
        first [left; by eexists | right; by eexists]. }
    destruct Hparsed as [? | [i'' Hi'']]; [by left | right]. clear Hi.
    destruct (m !! "published_parsed") as [[| | | | tt | | |] |];
      cbn in Hi''; try discriminate.
    destruct (time_mktime tt) as [secs |] eqn:Hsecs; cbn in Hi''; [| discriminate].
    destruct (datetime_fromtimestamp secs) as [stamp |] eqn:Hstamp; [| discriminate].
    by exists tt, secs, stamp.
Qed.

Lemma result_mapM_is_Ok {A B} (f : A → result B) l :
  (∃ r, result_mapM f l = Ok r) ↔ Forall (λ x, ∃ y, f x = Ok y) l.
Proof.
  induction l as [| x l IH]; cbn [result_mapM].
  - split; [constructor | by eexists].
  - rewrite Forall_cons, <- IH. destruct (f x) as [y |]; cbn.
    + destruct (result_mapM f l) as [ys |]; cbn.
      * split; [intros _; split; by eexists | by eexists].
      * split; [by intros [? ?] | by intros [_ [? ?]]].
    + split; [by intros [? ?] | by intros [[? ?] _]].
Qed.

Lemma result_mapM_first_error {A B} (f : A → result B) pre x post e :
  Forall (λ x, ∃ y, f x = Ok y) pre → f x = Err e →
  result_mapM f (pre ++ x :: post) = Err e.
Proof.
  intros Hpre Hx. induction Hpre as [| z pre [y Hy] _ IH]; cbn [app result_mapM].
  - by rewrite Hx.
  - rewrite Hy. cbn. by rewrite IH.
Qed.

(** A feed that passes the two checks of line 56 and holds an entry without
    a date. *)
Lemma fetch_undated_entry feed_url st top metav meta status pre e post m :
  as_map (feedparser_parse feed_url) = Some top →
  top !! "feed" = Some metav → as_map metav = Some meta →
  Py.truthy metav = true →
  top !! "status" = Some (VInt status) → 200 ≤ status < 300 →
  top !! "entries" = Some (VList (pre ++ e :: post)) →
  Forall (λ e, is_Some (as_map e)) (pre ++ e :: post) →
  Forall datable pre →
  as_map e = Some m →
  (∀ t, m !! "pubdate" ≠ Some (VDatetime t)) →
  m !! "published_parsed" = None →
  fetch_and_prepare_feed feed_url st
    = (Err (KeyError "published_parsed"), logged feed_url st).
Proof.
  intros Htop Hmeta Hm Htruthy Hstatus Hrange Hes Hall Hpre He Hnodate Hnone.
  pose proof (prepare_shape _ _ _ _ _ Htop Hmeta Hm Hes Hall) as Hp.
  rewrite Htruthy, (as_map_getitem _ _ "status" Htop), Hstatus in Hp.
  cbn [negb of_option mbind result_bind Py.int_in_range] in Hp.
  replace ((200 <=? status) && (status <? 300)) with true in Hp by lia.
  cbn [negb] in Hp. apply fetch_raises. rewrite Hp.
  rewrite fmap_app, fmap_cons.
  rewrite (result_mapM_first_error _ _ _ _ (KeyError "published_parsed")); [done | |].
  - apply Forall_fmap. eapply Forall_impl; [exact Hpre |].
    intros x Hx. apply datable_cast in Hx. apply Hx.
  - rewrite He. change (default ∅ (Some m)) with m.
    rewrite add_pubdate_VDict, !lookup_cast_items, Hnone.
    destruct (m !! "pubdate") as [[] |] eqn:Hpub; cbn; try done.
    by destruct (Hnodate t).
Qed.

End FetchShape.

(** ** Running the store operations *)

Lemma bind_obj_getitem {B} f k (g : value → M B) st :
  (obj_getitem f k ≫= g) st =
    match deref st f !! k with
    | Some v => g v st
    | None => (Err (KeyError k), st)
    end.
Proof. unfold obj_getitem, mbind, M_bind. by destruct (deref st f !! k). Qed.

Lemma bind_obj_setitem {B} f k v (g : () → M B) st :
  (obj_setitem f k v ≫= g) st = g () (store f (<[k := v]> (deref st f)) st).
Proof. reflexivity. Qed.

Lemma bind_lift {A B} (r : result A) (g : A → M B) st :
  (lift r ≫= g) st = match r with Ok a => g a st | Err e => (Err e, st) end.
Proof. unfold lift, mbind, M_bind. by destruct r. Qed.

Lemma bind_Err {A B} (m : M A) (g : A → M B) st e st' :
  m st = (Err e, st') → (m ≫= g) st = (Err e, st').
Proof. intros Hm. by rewrite M_bind_unfold, Hm. Qed.

Lemma bind_Ok {A B} (m : M A) (g : A → M B) st a st' :
  m st = (Ok a, st') → (m ≫= g) st = g a st'.
Proof. intros Hm. by rewrite M_bind_unfold, Hm. Qed.

Lemma deref_with_meta f m st : deref (with_meta f m st) f !! "feed" = Some (VDict m).
Proof. unfold with_meta. by rewrite deref_store_eq, lookup_insert_eq. Qed.

Lemma with_meta_twice f m m' st : with_meta f m' (with_meta f m st) = with_meta f m' st.
Proof.
  unfold with_meta. by rewrite deref_store_eq, insert_insert_eq, store_store.
Qed.

Lemma meta_pop_bind {B} f k (g : value → M B) st m :
  deref st f !! "feed" = Some (VDict m) →
  (meta_pop f k ≫= g) st =
    match m !! k with
    | Some x => g x (with_meta f (delete k m) st)
    | None => (Err (KeyError k), st)
    end.
Proof.
  intros Hm. unfold meta_pop. rewrite M_bind_unfold, bind_obj_getitem, Hm, bind_lift.
  cbn [Py.pop]. destruct (m !! k) as [x |]; [| done].
  cbn [of_option mbind result_bind]. by rewrite bind_obj_setitem.
Qed.

(** ** The arguments of the feed generator *)

Lemma set_in_Some m k v : set_in m k = Some v ↔ m !! k = Some v ∧ Py.truthy v = true.
Proof.
  unfold set_in. destruct (m !! k) as [w |]; cbn.
  - destruct (Py.truthy w) eqn:Hw; split.
    + by intros [= <-].
    + by intros [[= <-] _].
    + done.
    + intros [[= <-] Hv]. congruence.
  - split; [done | by intros [? _]].
Qed.

Lemma set_in_None m k :
  set_in m k = None ↔ Py.truthy (default VNone (m !! k)) = false.
Proof.
  unfold set_in. destruct (m !! k) as [w |]; cbn; [| done].
  by destruct (Py.truthy w).
Qed.

Lemma truthy_spec_description m : Py.truthy (spec_description m) = true.
Proof.
  unfold spec_description.
  destruct (set_in m "description") as [d |] eqn:Hd.
  { apply set_in_Some in Hd. tauto. }
  destruct (set_in m "title") as [t |] eqn:Ht.
  { apply set_in_Some in Ht. tauto. }
  destruct (set_in m "link") as [l |] eqn:Hl; [| done].
  apply set_in_Some in Hl. tauto.
Qed.

Lemma backfill_VDict m :
  backfill_description (VDict m) =
    match set_in m "description" with
    | Some _ => Ok (VDict m)
    | None =>
        match m !! "title" with
        | None => Err (KeyError "title")
        | Some t =>
            if Py.truthy t then Ok (VDict (<["description" := t]> m))
            else
              match m !! "link" with
              | None => Err (KeyError "link")
              | Some l =>
                  Ok (VDict (<["description" :=
                               if Py.truthy l then l else VStr "Unknown title"]> m))
              end
        end
    end.
Proof.
  unfold backfill_description. cbn [Py.get mbind result_bind].
  destruct (set_in m "description") as [d |] eqn:Hd.
  - apply set_in_Some in Hd as [-> Hd].
    change (default VNone (Some d)) with d. by rewrite Hd.
  - apply set_in_None in Hd. rewrite Hd. cbn [negb Py.getitem].
    destruct (m !! "title") as [t |]; [| done]. cbn [of_option mbind result_bind].
    destruct (Py.truthy t); [done |].
    destruct (m !! "link") as [l |]; [| done]. cbn [of_option mbind result_bind].
    by destruct (Py.truthy l).
Qed.

Lemma backfill_complete m t l :
  m !! "title" = Some t → m !! "link" = Some l →
  backfill_description (VDict m) = Ok (VDict (<["description" := spec_description m]> m)).
Proof.
  intros Ht Hl. rewrite backfill_VDict. unfold spec_description.
  destruct (set_in m "description") as [d |] eqn:Hd.
  - apply set_in_Some in Hd as [Hd _]. by rewrite insert_id.
  - rewrite Ht. unfold set_in at 1 2. rewrite Ht, Hl. cbn.
    destruct (Py.truthy t); [done |]. by destruct (Py.truthy l).
Qed.

Lemma feed_arguments_complete f st m t l :
  deref st f !! "feed" = Some (VDict m) →
  m !! "title" = Some t → m !! "link" = Some l →
  feed_arguments f st =
    (Ok (t, l, spec_description m,
         delete "description" (delete "link" (delete "title" m))),
     with_meta f (delete "description" (delete "link" (delete "title" m))) st).
Proof.
  intros Hm Ht Hl. unfold feed_arguments.
  rewrite bind_obj_getitem, Hm, bind_lift, (backfill_complete m t l Ht Hl).
  rewrite bind_obj_setitem. fold (with_meta f (<["description" := spec_description m]> m) st).
  rewrite (meta_pop_bind _ _ _ _ _ (deref_with_meta _ _ _)).
  rewrite lookup_insert_ne, Ht, with_meta_twice by done.
  rewrite (meta_pop_bind _ _ _ _ _ (deref_with_meta _ _ _)).
  rewrite lookup_delete_ne, lookup_insert_ne, Hl, with_meta_twice by done.
  rewrite (meta_pop_bind _ _ _ _ _ (deref_with_meta _ _ _)).
  rewrite !lookup_delete_ne, lookup_insert_eq, with_meta_twice by done.
  rewrite bind_obj_getitem, deref_with_meta, bind_lift. cbn [Py.kwargs].
  rewrite !(delete_insert_ne _ _ "description") by done.
  by rewrite delete_insert_eq.
Qed.

Lemma feed_arguments_missing f st m :
  deref st f !! "feed" = Some (VDict m) →
  m !! "title" = None ∨ m !! "link" = None →
  ∃ st', feed_arguments f st =
    (Err (KeyError (match m !! "title" with Some _ => "link" | None => "title" end)),
     st').
Proof.
  intros Hm Hmiss. unfold feed_arguments.
  rewrite bind_obj_getitem, Hm, bind_lift, backfill_VDict.
  destruct (set_in m "description") as [d |] eqn:Hd.
  - rewrite bind_obj_setitem. fold (with_meta f m st).
    rewrite (meta_pop_bind _ _ _ _ _ (deref_with_meta _ _ _)).
    destruct (m !! "title") as [t |] eqn:Ht; [| by eexists].
    destruct Hmiss as [| Hl]; [done |]. rewrite with_meta_twice.
    rewrite (meta_pop_bind _ _ _ _ _ (deref_with_meta _ _ _)).
    rewrite lookup_delete_ne, Hl by done. by eexists.
  - destruct (m !! "title") as [t |] eqn:Ht; [| by eexists].
    destruct Hmiss as [| Hl]; [done |]. rewrite Hl.
    destruct (Py.truthy t); [| by eexists].
    rewrite bind_obj_setitem. fold (with_meta f (<["description" := t]> m) st).
    rewrite (meta_pop_bind _ _ _ _ _ (deref_with_meta _ _ _)).
    rewrite lookup_insert_ne, Ht, with_meta_twice by done.
    rewrite (meta_pop_bind _ _ _ _ _ (deref_with_meta _ _ _)).
    rewrite lookup_delete_ne, lookup_insert_ne, Hl by done. by eexists.
Qed.

(** ** Computations that never raise [FeedFilterError] *)









Section Quiet.
Context {RE : Regex} {CO : Collaborators}.











(** ** Building the filters *)

Lemma build_filters key (re_patterns : list pattern_arg) :
  result_mapM (λ p, entry_field_re_filter p key) re_patterns =
    match compile_all re_patterns with
    | Some ps => Ok ((λ p, fil p key) <$> ps)
    | None => Err ReError
    end.
Proof.
  unfold compile_all. induction re_patterns as [| pa pats IH]; [done |].
  cbn [result_mapM]. rewrite IH. unfold entry_field_re_filter.
  change (mapM compiled (pa :: pats))
    with (p ← compiled pa; ps ← mapM compiled pats; Some (p :: ps)).
  destruct pa as [s | p]; cbn [compiled].
  - destruct (re_compile s) as [p |]; cbn; [| done].
    by destruct (mapM compiled pats).
  - cbn. by destruct (mapM compiled pats).
Qed.



End Quiet.

(** * The claims *)

(** ** Field filters and their conjunction *)

(** C5. The filter that [entry_field_re_filter] returns for a pattern [p]
    and a key, run on a feed whose entries are the list [es]: when every
    entry has a string under the key, the feed keeps exactly the entries in
    which a search finds the pattern, in their order, and a search finds
    the pattern when some slice [s[i:j]] of the string matches it, not only
    the whole string; when an entry lacks the key, [KeyError] comes out of
    the filter and the feed is left as it was. *)
Theorem entry_field_re_filter_keeps {RE : Regex} (p : pattern) (key : string)
    (F : loc) (st : state) (es : list value) :
  deref st F !! "entries" = Some (VList es) →
  entry_field_re_filter (PCompiled p) key = Ok (fil p key) ∧
  (∀ s, re_compile s = Some p → entry_field_re_filter (PStr s) key = Ok (fil p key)) ∧
  (Forall (has_str key) es →
     fil p key F st =
       (Ok F, store F (<["entries" := VList (filter (field_matches p key) es)]>
                         (deref st F)) st)) ∧
  (∀ e s, Py.getitem e key = Ok (VStr s) →
     field_matches p key e = true ↔
     ∃ i j : nat, (i ≤ j ≤ String.length s)%nat ∧ re_span p s i j = true) ∧
  (∀ pre e post, es = pre ++ e :: post → Forall (has_str key) pre →
     Py.getitem e key = Err (KeyError key) →
     fil p key F st = (Err (KeyError key), st)) ∧
  (∀ e, e ∈ es → Py.getitem e key = Err (KeyError key) →
     ∃ err, fil p key F st = (Err err, st)).
Proof.
  intros Hes. split_and!.
  - done.
  - intros s Hs. unfold entry_field_re_filter. cbn. by rewrite Hs.
  - intros Hall. rewrite fil_unfold, Hes. cbn [Py.iter]. by rewrite fil_loop_ok.
  - intros e s Hs. rewrite (field_matches_str _ _ _ _ Hs). apply re_search_spec.
  - intros pre e post -> Hpre He. rewrite fil_unfold, Hes. cbn [Py.iter].
    by rewrite (fil_loop_raises _ _ _ _ _ _ _ Hpre He).
  - intros e Hin He. rewrite fil_unfold, Hes. cbn [Py.iter].
    destruct (fil_loop_fails p key es e [] _ Hin He) as [err ->]. by exists err.
Qed.

Lemma entry_field_re_filter_keeps_witness :
  Demo.title_has "Go" 0%nat (Demo.st_of [Demo.go; Demo.py; Demo.both])
    = (Ok 0%nat, Demo.st_of [Demo.go; Demo.both]) ∧
  Demo.title_has "Go" 0%nat (Demo.st_of [Demo.go; Demo.untitled; Demo.py])
    = (Err (KeyError "title"), Demo.st_of [Demo.go; Demo.untitled; Demo.py]).
Proof.
  split.
  - destruct (entry_field_re_filter_keeps (RE := Demo.literal) "Go" "title" 0%nat
                (Demo.st_of [Demo.go; Demo.py; Demo.both])
                [Demo.go; Demo.py; Demo.both] eq_refl)
      as (_ & _ & Hkeep & _).
    unfold Demo.title_has. rewrite Hkeep.
    + vm_compute. reflexivity.
    + repeat constructor; eexists; reflexivity.
  - destruct (entry_field_re_filter_keeps (RE := Demo.literal) "Go" "title" 0%nat
                (Demo.st_of [Demo.go; Demo.untitled; Demo.py])
                [Demo.go; Demo.untitled; Demo.py] eq_refl)
      as (_ & _ & _ & _ & Hraise & _).
    apply (Hraise [Demo.go] Demo.untitled [Demo.py]).
    + reflexivity.
    + repeat constructor; eexists; reflexivity.
    + reflexivity.
Defined.

(** A search is not a full match: "Go" is found in "Go release", which it
    does not match as a whole. *)
Example search_is_not_fullmatch :
  re_search (RE := Demo.literal) "Go" "Go release" = true ∧
  re_fullmatch (RE := Demo.literal) "Go" "Go release" = false.
Proof. split; reflexivity. Qed.

(** C6, as the code has it.  [AND_filter filter1 filter2] runs [filter2] and
    then [filter1] on the feed it returns; composing a field filter with
    itself gives the field filter, and so does composing any filter that
    leaves its own result as it is. *)
Theorem AND_filter_sequential {RE : Regex} :
  (∀ (filter1 filter2 : FeedFilter) F st,
     AND_filter filter1 filter2 F st =
       match filter2 F st with
       | (Ok F', st') => filter1 F' st'
       | (Err e, st') => (Err e, st')
       end) ∧
  (∀ p key F st, AND_filter (fil p key) (fil p key) F st = fil p key F st) ∧
(∀ f : FeedFilter,
   (∀ F st F' st', f F st = (Ok F', st') → f F' st' = (Ok F', st')) →
   ∀ F st, AND_filter f f F st = f F st).
Proof.
  split_and!; [reflexivity | apply fil_twice |].
  intros f Hidem F st. unfold AND_filter. rewrite M_bind_unfold.
  destruct (f F st) as [[F' | e] st'] eqn:Hf; [by apply (Hidem F st) | done].
Qed.

(** C6 as stated fails for a filter that is not idempotent: dropping the
    first entry twice is not dropping it once. *)
Lemma AND_filter_not_idempotent :
  deref (AND_filter drop_first drop_first 0%nat (Demo.st_of [Demo.go; Demo.py])).2 0%nat
    !! "entries" = Some (VList []) ∧
  deref (drop_first 0%nat (Demo.st_of [Demo.go; Demo.py])).2 0%nat
    !! "entries" = Some (VList [Demo.py]) ∧
  AND_filter drop_first drop_first 0%nat (Demo.st_of [Demo.go; Demo.py])
    ≠ drop_first 0%nat (Demo.st_of [Demo.go; Demo.py]).
Proof.
  split_and!; [reflexivity | reflexivity |].
  intros Heq. apply (f_equal (λ r, deref r.2 0%nat !! "entries")) in Heq.
  vm_compute in Heq. discriminate.
Qed.

(** ** Disjunction *)

(** C1. [OR_filter filter1 filter2] on the feed [F]: [filter1] runs on a new
    object that holds a copy of [F], then [filter2] runs on [F] itself.
    Where both return feeds, with entries [es1] and [es2] that carry a
    hashable link and a datetime [pubdate], the entries [es1 ++ es2] are
    reduced to the first entry of each link and sorted ascending by
    [pubdate]; the list is stored in [F], and [F] is returned. *)
Theorem OR_filter_computes (filter1 filter2 : FeedFilter) (F : loc) (st : state)
    (filtered1 : loc) (st1 : state) (filtered2 : loc) (st2 : state)
    (es1 es2 : list value) :
  filter1 (fresh (dom (heap st))) (store (fresh (dom (heap st))) (deref st F) st)
    = (Ok filtered1, st1) →
  filter2 F st1 = (Ok filtered2, st2) →
  deref st2 filtered1 !! "entries" = Some (VList es1) →
  deref st2 filtered2 !! "entries" = Some (VList es2) →
  Forall (λ e, entry_ok e = true) (es1 ++ es2) →
  heap st !! fresh (dom (heap st)) = None ∧
  deref (store (fresh (dom (heap st))) (deref st F) st) (fresh (dom (heap st)))
    = deref st F ∧
  ∃ out,
    OR_filter filter1 filter2 F st
      = (Ok F, store F (<["entries" := VList out]> (deref st2 F)) st2) ∧
    sorted_by_pubdate (keep_first (es1 ++ es2)) out.
Proof.
  intros H1 H2 He1 He2 Hall. split_and!.
  - apply fresh_loc_new.
  - apply deref_store_eq.
  - exists (isort (keep_first (es1 ++ es2))). split.
    + by eapply OR_filter_run.
    + apply isort_sorted_by_pubdate. apply Forall_forall.
      intros e He%keep_first_subseteq. rewrite Forall_forall in Hall.
      by apply entry_ok_spec, Hall.
Qed.

Lemma OR_filter_computes_witness :
  ∃ out,
    OR_filter (Demo.title_has "Go") (Demo.title_has "Python") 0%nat
        (Demo.st_of [Demo.go; Demo.py; Demo.both])
      = (Ok 0%nat,
         store 0%nat (<["entries" := VList out]> (Demo.feed_of [Demo.py; Demo.both]))
           (State (<[1%nat := Demo.feed_of [Demo.go; Demo.both]]>
                     {[ 0%nat := Demo.feed_of [Demo.py; Demo.both] ]}) [])) ∧
    sorted_by_pubdate (keep_first ([Demo.go; Demo.both] ++ [Demo.py; Demo.both])) out.
Proof.
  destruct (OR_filter_computes (Demo.title_has "Go") (Demo.title_has "Python") 0%nat
              (Demo.st_of [Demo.go; Demo.py; Demo.both])
              1%nat
              (State (<[1%nat := Demo.feed_of [Demo.go; Demo.both]]>
                        {[ 0%nat := Demo.feed_of [Demo.go; Demo.py; Demo.both] ]}) [])
              0%nat
              (State (<[1%nat := Demo.feed_of [Demo.go; Demo.both]]>
                        {[ 0%nat := Demo.feed_of [Demo.py; Demo.both] ]}) [])
              [Demo.go; Demo.both] [Demo.py; Demo.both])
    as (_ & _ & out & Hrun & Hsorted).
  - vm_compute. reflexivity.
  - vm_compute. reflexivity.
  - reflexivity.
  - reflexivity.
  - repeat constructor.
  - exists out. split; [exact Hrun | exact Hsorted].
Defined.

(** What the merge gives on the demo feed: the first entry of each link,
    oldest first. *)
Example OR_filter_demo :
  deref (OR_filter (Demo.title_has "Go") (Demo.title_has "Python") 0%nat
           (Demo.st_of [Demo.go; Demo.py; Demo.both])).2 0%nat !! "entries"
    = Some (VList [Demo.py; Demo.both; Demo.go]).
Proof. vm_compute. reflexivity. Qed.

Lemma omap_link_key (l : list value) :
  Forall (λ e, is_Some (link_key e)) l → Some <$> omap link_key l = link_key <$> l.
Proof.
  induction 1 as [| e l [h Hh] _ IH]; [done |]. cbn. rewrite Hh. cbn. by rewrite IH.
Qed.

(** C2, as the code has it.  Under the conditions of C1 the call returns,
    the number of entries of the result is the number of distinct links in
    it, and an entry is in the result exactly when it stands in [es1 ++ es2]
    before every other entry of its link; a different entry under the link
    of such a first entry is dropped, and no exception is raised. *)
Theorem OR_filter_counts (filter1 filter2 : FeedFilter) (F : loc) (st : state)
    (filtered1 : loc) (st1 : state) (filtered2 : loc) (st2 : state)
    (es1 es2 : list value) :
  filter1 (fresh (dom (heap st))) (store (fresh (dom (heap st))) (deref st F) st)
    = (Ok filtered1, st1) →
  filter2 F st1 = (Ok filtered2, st2) →
  deref st2 filtered1 !! "entries" = Some (VList es1) →
  deref st2 filtered2 !! "entries" = Some (VList es2) →
  Forall (λ e, entry_ok e = true) (es1 ++ es2) →
  ∃ out,
    OR_filter filter1 filter2 F st
      = (Ok F, store F (<["entries" := VList out]> (deref st2 F)) st2) ∧
    length out = size (list_to_set (omap link_key out) : gset hkey) ∧
    (∀ e, e ∈ out ↔
       ∃ n : nat, (es1 ++ es2) !! n = Some e ∧
         ∀ (m : nat) e', (m < n)%nat → (es1 ++ es2) !! m = Some e' →
           link_key e' ≠ link_key e) ∧
    (∀ (n : nat) e e', (es1 ++ es2) !! n = Some e →
       (∀ (m : nat) e'', (m < n)%nat → (es1 ++ es2) !! m = Some e'' →
          link_key e'' ≠ link_key e) →
       link_key e' = link_key e → e' ≠ e → e' ∉ out).
Proof.
  intros H1 H2 He1 He2 Hall.
  exists (isort (keep_first (es1 ++ es2))).
  assert (Hin : ∀ e, e ∈ isort (keep_first (es1 ++ es2)) ↔ e ∈ keep_first (es1 ++ es2))
    by (intros e; by rewrite isort_Permutation).
  split_and!.
  - by eapply OR_filter_run.
  - assert (Hsome : Forall (λ e, is_Some (link_key e)) (keep_first (es1 ++ es2))).
    { apply Forall_forall. intros e He%keep_first_subseteq.
      rewrite Forall_forall in Hall. by apply entry_ok_spec, Hall. }
    assert (Hlinks : omap link_key (isort (keep_first (es1 ++ es2)))
                       ≡ₚ omap link_key (keep_first (es1 ++ es2)))
      by (by rewrite isort_Permutation).
    pose proof (omap_link_key _ Hsome) as Hfmap.
    rewrite Hlinks, size_list_to_set.
    + rewrite isort_Permutation.
      by rewrite <- (length_fmap link_key), <- Hfmap, length_fmap.
    + apply (NoDup_fmap_1 Some). rewrite Hfmap. apply keep_first_NoDup.
  - intros e. rewrite Hin. apply elem_of_keep_first.
  - intros n e e' Hn Hfirst Hlink Hne.
    rewrite Hin, elem_of_keep_first. intros (k & Hk & Hfirst').
    destruct (lt_eq_lt_dec k n) as [[Hlt | ->] | Hgt].
    + by apply (Hfirst k e').
    + congruence.
    + by apply (Hfirst' n e).
Qed.

Lemma OR_filter_counts_witness :
  ∃ out,
    OR_filter (Demo.title_has "Go") (Demo.title_has "Python") 0%nat
        (Demo.st_of [Demo.go; Demo.go_again])
      = (Ok 0%nat,
         store 0%nat (<["entries" := VList out]> (Demo.feed_of [Demo.go_again]))
           (State (<[1%nat := Demo.feed_of [Demo.go; Demo.go_again]]>
                     {[ 0%nat := Demo.feed_of [Demo.go_again] ]}) [])) ∧
    length out = size (list_to_set (omap link_key out) : gset hkey) ∧
    Demo.go_again ∉ out.
Proof.
  destruct (OR_filter_counts (Demo.title_has "Go") (Demo.title_has "Python") 0%nat
              (Demo.st_of [Demo.go; Demo.go_again])
              1%nat
              (State (<[1%nat := Demo.feed_of [Demo.go; Demo.go_again]]>
                        {[ 0%nat := Demo.feed_of [Demo.go; Demo.go_again] ]}) [])
              0%nat
              (State (<[1%nat := Demo.feed_of [Demo.go; Demo.go_again]]>
                        {[ 0%nat := Demo.feed_of [Demo.go_again] ]}) [])
              [Demo.go; Demo.go_again] [Demo.go_again])
    as (out & Hrun & Hcount & _ & Hdrop).
  - vm_compute. reflexivity.
  - vm_compute. reflexivity.
  - reflexivity.
  - reflexivity.
  - repeat constructor.
  - exists out. split_and!; [exact Hrun | exact Hcount |].
    apply (Hdrop 0%nat Demo.go Demo.go_again).
    + reflexivity.
    + intros m e'' Hm. lia.
    + reflexivity.
    + intros Heq. apply (f_equal (λ e, Py.getitem e "title")) in Heq.
      vm_compute in Heq. discriminate.
Defined.

(** C2 as stated fails: the feed holds two different entries under the link
    "a", both filters keep the second one, and the composition returns the
    feed with the first entry alone instead of raising. *)
Lemma OR_filter_drops_silently :
  link_key Demo.go = link_key Demo.go_again ∧
  Py.getitem Demo.go "title" ≠ Py.getitem Demo.go_again "title" ∧
  OR_filter (Demo.title_has "Go") (Demo.title_has "Python") 0%nat
      (Demo.st_of [Demo.go; Demo.go_again])
    = (Ok 0%nat,
       State (<[1%nat := Demo.feed_of [Demo.go; Demo.go_again]]>
                 {[ 0%nat := Demo.feed_of [Demo.go] ]}) []) ∧
  raises_assertion
    (OR_filter (Demo.title_has "Go") (Demo.title_has "Python") 0%nat
       (Demo.st_of [Demo.go; Demo.go_again])).1 = false.
Proof.
  split_and!.
  - reflexivity.
  - vm_compute. discriminate.
  - vm_compute. reflexivity.
  - vm_compute. reflexivity.
Qed.

(** C9. The assertion of [OR_filter] cannot fail.  After the loop the list
    of entries and the set of links have one size, for any items; the merge
    never ends in [AssertionError]; and a call of the composed filter ends
    in one only if [filter1] or [filter2] itself did. *)
Theorem OR_filter_assertion_holds :
  (∀ items,
     match or_loop items [] ∅ with
     | Ok (entries, seen_urls) => length entries = size seen_urls
     | Err _ => True
     end) ∧
  (∀ items, raises_assertion (or_merge items) = false) ∧
  (∀ (filter1 filter2 : FeedFilter) F st,
     raises_assertion (OR_filter filter1 filter2 F st).1 =
       match filter1 (fresh (dom (heap st)))
                     (store (fresh (dom (heap st))) (deref st F) st) with
       | (Err e, _) => is_assertion e
       | (Ok _, st1) =>
           match filter2 F st1 with
           | (Err e, _) => is_assertion e
           | (Ok _, _) => false
           end
       end).
Proof.
  split_and!.
  - intros items. destruct (or_loop items [] ∅) as [[entries seen] |] eqn:Hloop; [| done].
    by apply (or_loop_count _ _ _ _ _ Hloop).
  - apply or_merge_asserts_nothing.
  - intros filter1 filter2 F st. rewrite OR_filter_unfold.
    destruct (filter1 _ _) as [[filtered1 |] st1]; [| done].
    destruct (filter2 F st1) as [[filtered2 |] st2]; [| done].
    destruct (deref st2 filtered1 !! "entries") as [entries1 |]; [| done].
    destruct (deref st2 filtered2 !! "entries") as [entries2 |]; [| done].
    pose proof (ordinary_iter_add entries1 entries2) as Hadd.
    destruct (Py.iter_add entries1 entries2) as [items | e]; cbn [mbind result_bind].
    + pose proof (or_merge_asserts_nothing items) as Hmerge.
      by destruct (or_merge items).
    + cbn. by destruct e.
Qed.

(** ** Fetching and normalising *)

(** C7. The cast of a feed structure that is already made of plain dicts is
    that structure. *)
Theorem normalization_idempotent (feed : value) :
  normalized feed = true → _cast_feed_to_primitives feed = Ok feed.
Proof. apply cast_normalized. Qed.

Lemma normalization_idempotent_witness :
  normalized (VDict (Demo.feed_of [Demo.go; Demo.py])) = true ∧
  _cast_feed_to_primitives (VDict (Demo.feed_of [Demo.go; Demo.py]))
    = Ok (VDict (Demo.feed_of [Demo.go; Demo.py])).
Proof.
  split; [reflexivity |].
  apply (normalization_idempotent (VDict (Demo.feed_of [Demo.go; Demo.py]))).
  reflexivity.
Defined.

(** The cast gives such a structure, so that casting twice is casting
    once. *)
Lemma cast_twice feed feed' :
  _cast_feed_to_primitives feed = Ok feed' →
  _cast_feed_to_primitives feed' = Ok feed'.
Proof. intros Hc. by apply cast_normalized, (normalized_cast feed). Qed.

Example cast_of_parsed :
  _cast_feed_to_primitives Demo.parsed_empty
    = Ok (VDict (<["feed" := VDict ∅]> (<["status" := VInt 200]>
                   (<["entries" := VList []]> ∅)))).
Proof. reflexivity. Qed.

(** C4, as the code has it.  [fetch_and_prepare_feed] raises
    [FeedFetchError] exactly when the metadata of the parsed feed is empty
    or [None], or the metadata is there and the status is an integer outside
    200..299; the entries of a feed it returns all carry a datetime
    [pubdate]; and the entries are looked at before it returns: in a feed
    that passes the two checks, the first entry that has neither a datetime
    [pubdate] nor a [published_parsed], the ones before it being datable,
    ends the call in [KeyError] for 'published_parsed'. *)
Theorem fetch_error_iff {CO : Collaborators} (feed_url : string) (st : state) :
  ((fetch_and_prepare_feed feed_url st).1 = Err FeedFetchError ↔
     ∃ meta, Py.getitem (feedparser_parse feed_url) "feed" = Ok meta ∧
       (Py.truthy meta = false ∨
        ∃ status, Py.getitem (feedparser_parse feed_url) "status" = Ok (VInt status)
                  ∧ ¬ (200 ≤ status < 300))) ∧
  (∀ f st', fetch_and_prepare_feed feed_url st = (Ok f, st') →
     ∃ es, deref st' f !! "entries" = Some (VList es) ∧
           Forall (λ e, ∃ t, Py.getitem e "pubdate" = Ok (VDatetime t)) es) ∧
  (∀ top metav meta status pre e post m,
     as_map (feedparser_parse feed_url) = Some top →
     top !! "feed" = Some metav → as_map metav = Some meta →
     Py.truthy metav = true →
     top !! "status" = Some (VInt status) → 200 ≤ status < 300 →
     top !! "entries" = Some (VList (pre ++ e :: post)) →
     Forall (λ e, is_Some (as_map e)) (pre ++ e :: post) →
     Forall datable pre →
     as_map e = Some m →
     (∀ t, m !! "pubdate" ≠ Some (VDatetime t)) →
     m !! "published_parsed" = None →
     fetch_and_prepare_feed feed_url st
       = (Err (KeyError "published_parsed"), logged feed_url st)).
Proof.
  split_and!.
  - rewrite fetch_unfold, <- prepare_fetch_error.
    destruct (prepare (feedparser_parse feed_url)); cbn; split; congruence.
  - intros f st'. rewrite fetch_unfold.
    destruct (prepare (feedparser_parse feed_url)) as [d |] eqn:Hp; [| discriminate].
    intros [= <- <-]. rewrite deref_store_eq.
    destruct (prepare_dated _ _ Hp) as (es & Hes & Hall).
    exists es. split; [done |]. eapply Forall_impl; [exact Hall |].
    intros e [t Ht]. exists t. by apply pubdate_of_Some.
  - intros top metav meta status pre e post m. apply fetch_undated_entry.
Qed.

Lemma fetch_error_iff_witness :
  (fetch_and_prepare_feed (CO := Demo.world) "http://example.org/gone" Demo.st_empty).1
    = Err FeedFetchError ∧
  (∃ es, deref (fetch_and_prepare_feed (CO := Demo.world) Demo.source Demo.st_empty).2 0%nat
          !! "entries" = Some (VList es) ∧
        Forall (λ e, ∃ t, Py.getitem e "pubdate" = Ok (VDatetime t)) es) ∧
  fetch_and_prepare_feed (CO := Dateless.world) Dateless.source Demo.st_empty
    = (Err (KeyError "published_parsed"), logged Dateless.source Demo.st_empty).
Proof.
  split_and!.
  - destruct (fetch_error_iff (CO := Demo.world) "http://example.org/gone" Demo.st_empty)
      as ([_ Hraise] & _ & _).
    apply Hraise. exists (VFPDict Demo.meta). split; [reflexivity | right].
    exists 404. split; [reflexivity | lia].
  - destruct (fetch_error_iff (CO := Demo.world) Demo.source Demo.st_empty)
      as (_ & Hdated & _).
    apply (Hdated 0%nat
             (fetch_and_prepare_feed (CO := Demo.world) Demo.source Demo.st_empty).2).
    vm_compute. reflexivity.
  - destruct (fetch_error_iff (CO := Dateless.world) Dateless.source Demo.st_empty)
      as (_ & _ & Hentry).
    apply (Hentry (default ∅ (as_map Dateless.parsed)) (VFPDict Demo.meta) Demo.meta 200
             [] (VFPDict (<["link" := VStr "e"]> (<["title" := VStr "Go undated"]> ∅))) []
             (<["link" := VStr "e"]> (<["title" := VStr "Go undated"]> ∅))).
    + reflexivity.
    + reflexivity.
    + reflexivity.
    + reflexivity.
    + reflexivity.
    + lia.
    + reflexivity.
    + repeat constructor. by eexists.
    + constructor.
    + reflexivity.
    + intros t. vm_compute. discriminate.
    + reflexivity.
Defined.

(** C4 as stated fails on a feed that passes the two checks and holds an
    entry without a date: the metadata is there and the status is 200, and
    yet the call does not return, since line 61 looks up
    'published_parsed' in every entry that has no datetime [pubdate]. *)
Lemma fetch_rejects_undated_entry :
  Py.getitem Dateless.parsed "feed" = Ok (VFPDict Demo.meta) ∧
  Py.truthy (VFPDict Demo.meta) = true ∧
  Py.getitem Dateless.parsed "status" = Ok (VInt 200) ∧
  fetch_and_prepare_feed (CO := Dateless.world) Dateless.source Demo.st_empty
    = (Err (KeyError "published_parsed"),
       State ∅ [Dateless.source]).
Proof. split_and!; vm_compute; reflexivity. Qed.

(** The two failures of the specification: an answer 404, and a feed
    without metadata. *)
Example fetch_failures :
  (fetch_and_prepare_feed (CO := Demo.world) "http://example.org/gone" Demo.st_empty).1
    = Err FeedFetchError ∧
  (fetch_and_prepare_feed (CO := Demo.world) Demo.empty_source Demo.st_empty).1
    = Err FeedFetchError.
Proof. split; reflexivity. Qed.

(** ** The feed handed to the generator *)

(** C8. In [filter_feed], once the feed is fetched and transformed, with
    metadata [m] that holds a title and a link: the generator is called with
    the description of [m] if that is set, else the title if set, else the
    link if set, else "Unknown title", and this value is never empty. *)
Theorem description_backfilled {CO : Collaborators}
    (feed_url : string) (transform_func : FeedFilter) (st : state)
    (f0 : loc) (st0 : state) (f : loc) (st1 : state)
    (m : gmap string value) (title link : value) :
  fetch_and_prepare_feed feed_url st = (Ok f0, st0) →
  transform_func f0 st0 = (Ok f, st1) →
  deref st1 f !! "feed" = Some (VDict m) →
  m !! "title" = Some title →
  m !! "link" = Some link →
  Py.truthy (spec_description m) = true ∧
  feed_arguments f st1 =
    (Ok (title, link, spec_description m,
         delete "description" (delete "link" (delete "title" m))),
     with_meta f (delete "description" (delete "link" (delete "title" m))) st1) ∧
  filter_feed feed_url transform_func st =
    (o ← lift (of_option (ExternalError "feedgenerator")
                 (Rss201rev2Feed title link (spec_description m)
                    (delete "description" (delete "link" (delete "title" m)))));
     write_feed f o)
      (with_meta f (delete "description" (delete "link" (delete "title" m))) st1).
Proof.
  intros Hfetch Htrans Hm Htitle Hlink.
  pose proof (feed_arguments_complete f st1 m title link Hm Htitle Hlink) as Hargs.
  split_and!; [apply truthy_spec_description | exact Hargs |].
  unfold filter_feed. rewrite (bind_Ok _ _ _ _ _ Hfetch), (bind_Ok _ _ _ _ _ Htrans).
  unfold emit. by rewrite (bind_Ok _ _ _ _ _ Hargs).
Qed.

Lemma description_backfilled_witness :
  filter_feed (CO := Demo.world) Demo.source (Demo.title_has "Go")
    Demo.st_empty
  = (o ← lift (of_option (ExternalError "feedgenerator")
                 (Rss201rev2Feed (Collaborators := Demo.world)
                    (VStr "News") (VStr "http://example.org/") (VStr "News") ∅));
     write_feed (CO := Demo.world) 0%nat o)
      (with_meta 0%nat ∅
         (fil (RE := Demo.literal) "Go" "title" 0%nat
            (fetch_and_prepare_feed (CO := Demo.world) Demo.source Demo.st_empty).2).2).
Proof.
  destruct (description_backfilled (CO := Demo.world)
              Demo.source (Demo.title_has "Go") Demo.st_empty
              0%nat (fetch_and_prepare_feed (CO := Demo.world) Demo.source Demo.st_empty).2
              0%nat
              (fil (RE := Demo.literal) "Go" "title" 0%nat
                 (fetch_and_prepare_feed (CO := Demo.world) Demo.source Demo.st_empty).2).2
              Demo.meta (VStr "News") (VStr "http://example.org/"))
    as (_ & _ & Hrun).
  - vm_compute. reflexivity.
  - vm_compute. reflexivity.
  - vm_compute. reflexivity.
  - reflexivity.
  - reflexivity.
  - exact Hrun.
Defined.



(** ** The entry point *)

Section Main.
Context {RE : Regex} {CO : Collaborators}.

(** [builtin_main] step by step: the filters are built, the operation is
    checked, the filters are counted, and only then is the feed fetched. *)
Lemma builtin_main_unfold feed url_filters title_filters operation st :
  builtin_main feed url_filters title_filters operation st =
    match compile_all title_filters, compile_all url_filters with
    | None, _ | Some _, None => (Err ReError, st)
    | Some tps, Some ups =>
        if bool_decide (operation ∈ ["OR"; "AND"]) then
          match ((λ p, fil p "title") <$> tps) ++ ((λ p, fil p "link") <$> ups) with
          | [] => (Err (FeedFilterError "No filters provided!"), st)
          | [filter1] => filter_feed feed filter1 st
          | [filter1; filter2] =>
              filter_feed feed
                (if String.eqb operation "OR" then OR_filter filter1 filter2
                 else AND_filter filter1 filter2) st
          | _ => (Err (FeedFilterError
                         "Too many filters given; use Regex to re-use some?"), st)
          end
        else (Err (FeedFilterError
                     ("Operation can only be AND or OR: '" +:+ operation +:+ "'")), st)
    end.
Proof.
  unfold builtin_main, in_title_filter, in_url_filter.
  rewrite bind_lift, build_filters.
  destruct (compile_all title_filters) as [tps |]; [| done].
  rewrite bind_lift, build_filters.
  destruct (compile_all url_filters) as [ups |]; [| done].
  destruct (bool_decide (operation ∈ ["OR"; "AND"])); [| done]. cbn [negb].
  destruct (((λ p, fil p "title") <$> tps) ++ ((λ p, fil p "link") <$> ups))
    as [| filter1 [| filter2 [| filter3 rest]]]; try done.
  by destruct (String.eqb operation "OR").
Qed.



End Main.



(** The examples of the specification, run on the demo source: one title
    filter; a title filter and a link filter under "AND"; and the same two
    under "OR".  The generator of the demo writes the links of the items. *)
Example end_to_end :
  (builtin_main (RE := Demo.literal) (CO := Demo.world) Demo.source
     [] [PStr "Go"] "OR" Demo.st_empty).1 = Ok "a" ∧
  (builtin_main (RE := Demo.literal) (CO := Demo.world) Demo.source
     [PStr "b"] [PStr "e"] "AND" Demo.st_empty).1 = Ok "b" ∧
  (builtin_main (RE := Demo.literal) (CO := Demo.world) Demo.source
     [PStr "b"] [PStr "Go"] "OR" Demo.st_empty).1 = Ok "a;b".
Proof. split_and!; vm_compute; reflexivity. Qed.

(** * Further properties *)

(** ** The cast *)

(** X1. What [_cast_feed_to_primitives] returns is a plain dict whose
    metadata is a plain dict and whose entries are plain dicts, and neither
    the metadata nor any entry holds a FeedParserDict as a value.  The
    values under the other top-level keys are not looked at and are kept as
    they are, a FeedParserDict among them staying one.  A second cast gives
    the result back unchanged. *)
Theorem cast_gives_plain_dicts (feed feed' : value) :
  _cast_feed_to_primitives feed = Ok feed' →
  (∃ top top' meta' es',
     Py.dict feed = Ok top ∧ feed' = VDict top' ∧
     top' !! "feed" = Some (VDict meta') ∧ plain meta' ∧
     top' !! "entries" = Some (VList es') ∧
     Forall (λ e, ∃ m, e = VDict m ∧ plain m) es' ∧
     ∀ k, k ≠ "feed" → k ≠ "entries" → top' !! k = top !! k) ∧
  _cast_feed_to_primitives feed' = Ok feed'.
Proof.
  intros Hc. split; [| by apply cast_normalized, (normalized_cast feed)].
  unfold _cast_feed_to_primitives in Hc.
  destruct (Py.dict feed) as [top |]; [| discriminate]. cbn in Hc.
  destruct (top !! "feed") as [metav |]; [| discriminate]. cbn in Hc.
  destruct (Py.dict metav) as [meta |]; [| discriminate]. cbn in Hc.
  rewrite lookup_insert_ne in Hc by done.
  destruct (top !! "entries") as [entries |]; [| discriminate]. cbn in Hc.
  destruct (Py.iter entries) as [items |]; [| discriminate]. cbn in Hc.
  destruct (result_mapM _ items) as [nuentries |] eqn:Hmap; [| discriminate].
  cbn in Hc. injection Hc as <-.
  exists top, (<["entries" := VList nuentries]> (<["feed" := VDict (cast_items meta)]> top)),
    (cast_items meta), nuentries.
  split_and!; try done.
  - by rewrite lookup_insert_ne, lookup_insert_eq.
  - apply plain_cast_items.
  - apply lookup_insert_eq.
  - eapply (result_mapM_Forall_r _ _ _ _ Hmap). intros x y Hxy. cbn beta in Hxy.
    destruct (Py.dict x) as [d |]; [| discriminate]. cbn in Hxy.
    injection Hxy as <-. eexists. split; [done | apply plain_cast_items].
  - intros k Hfeed Hentries. by rewrite !lookup_insert_ne.
Qed.

Lemma cast_gives_plain_dicts_witness :
  ∃ top',
    _cast_feed_to_primitives
      (VFPDict (<["headers" := VFPDict ∅]> (default ∅ (as_map Demo.parsed))))
      = Ok (VDict top') ∧
    top' !! "headers" = Some (VFPDict ∅) ∧
    _cast_feed_to_primitives (VDict top') = Ok (VDict top').
Proof.
  destruct (cast_gives_plain_dicts
              (VFPDict (<["headers" := VFPDict ∅]> (default ∅ (as_map Demo.parsed))))
              (VDict (<["headers" := VFPDict ∅]>
                        (default ∅ (as_map
                           (default VNone
                              (match _cast_feed_to_primitives Demo.parsed with
                               | Ok v => Some v
                               | Err _ => None
                               end)))))))
    as [(top & top' & meta' & es' & Htop & Hfeed' & _ & _ & _ & _ & Hkeep) Htwice].
  - vm_compute. reflexivity.
  - exists top'. injection Htop as <-. rewrite <- Hfeed'. split_and!.
    + vm_compute. reflexivity.
    + by rewrite Hkeep.
    + exact Htwice.
Defined.

(** X2. The cast of a feed whose entries are mappings keeps the top-level
    fields other than 'feed' and 'entries', the fields of the metadata, and
    the entries in number and order with their fields; a field changes only
    when its value is a FeedParserDict, which becomes a plain dict with the
    same content.  The cast goes no deeper: a list value is kept as it is,
    whatever it holds. *)
Theorem cast_keeps_fields (feed : value) (top : gmap string value)
    (metav : value) (meta : gmap string value) (es : list value) :
  Py.dict feed = Ok top →
  top !! "feed" = Some metav → Py.dict metav = Ok meta →
  top !! "entries" = Some (VList es) →
  Forall (λ e, is_Some (as_map e)) es →
  ∃ top' meta' es',
    _cast_feed_to_primitives feed = Ok (VDict top') ∧
    (∀ k, k ≠ "feed" → k ≠ "entries" → top' !! k = top !! k) ∧
    top' !! "feed" = Some (VDict meta') ∧
    (∀ k, meta' !! k = plain_value <$> meta !! k) ∧
    top' !! "entries" = Some (VList es') ∧
    Forall2 (λ e e', ∃ m m', as_map e = Some m ∧ e' = VDict m' ∧
                       ∀ k, m' !! k = plain_value <$> m !! k) es es' ∧
    (∀ l, plain_value (VList l) = VList l).
Proof.
  intros Htop Hmeta Hdict Hes Hall.
  eexists _, _, _. split; [by eapply cast_shape |]. split_and!.
  - intros k Hf He. by rewrite !lookup_insert_ne.
  - by rewrite lookup_insert_ne, lookup_insert_eq.
  - apply lookup_cast_items.
  - apply lookup_insert_eq.
  - apply Forall2_fmap_r, Forall_Forall2_diag.
    eapply Forall_impl; [exact Hall |]. intros e [m Hm].
    exists m, (cast_items m). rewrite Hm. split_and!; [done | done |].
    apply lookup_cast_items.
  - done.
Qed.

Lemma cast_keeps_fields_witness :
  ∃ top' meta' es',
    _cast_feed_to_primitives Demo.parsed = Ok (VDict top') ∧
    top' !! "status" = Some (VInt 200) ∧
    top' !! "feed" = Some (VDict meta') ∧
    meta' !! "title" = Some (VStr "News") ∧
    top' !! "entries" = Some (VList es') ∧
    length es' = 2%nat.
Proof.
  destruct (cast_keeps_fields Demo.parsed
              (default ∅ (as_map Demo.parsed)) (VFPDict Demo.meta) Demo.meta
              [Demo.raw_entry "a" "Go release" (2024, 1, 1, 0, 0, 0, 0, 1, 0);
               Demo.raw_entry "b" "Python news" (2024, 1, 2, 0, 0, 0, 1, 2, 0)])
    as (top' & meta' & es' & Hc & Htop & Hfeed & Hmeta & Hes & Hall & _).
  - reflexivity.
  - reflexivity.
  - reflexivity.
  - reflexivity.
  - repeat constructor; by eexists.
  - exists top', meta', es'. split_and!.
    + exact Hc.
    + by rewrite Htop.
    + exact Hfeed.
    + by rewrite Hmeta.
    + exact Hes.
    + by rewrite <- (Forall2_length _ _ _ Hall).
Defined.

(** ** Fetching *)

Section FetchMore.
Context {CO : Collaborators}.

(** X3. The checks of line 56 run from left to right.  A parsed feed without
    the 'feed' key raises the lookup error; one whose metadata is empty
    raises [FeedFetchError] whether or not it has a status; one with
    metadata and no 'status', as feedparser gives for a file, raises
    [KeyError] for 'status'; and a status that is not an integer raises
    [TypeError].  In each case the fetch has happened and no feed object was
    made. *)
Theorem fetch_checks_in_order (feed_url : string) (st : state) :
  (∀ e, Py.getitem (feedparser_parse feed_url) "feed" = Err e →
     fetch_and_prepare_feed feed_url st = (Err e, logged feed_url st)) ∧
  (∀ meta, Py.getitem (feedparser_parse feed_url) "feed" = Ok meta →
     Py.truthy meta = false →
     fetch_and_prepare_feed feed_url st = (Err FeedFetchError, logged feed_url st)) ∧
  (∀ meta e, Py.getitem (feedparser_parse feed_url) "feed" = Ok meta →
     Py.truthy meta = true →
     Py.getitem (feedparser_parse feed_url) "status" = Err e →
     fetch_and_prepare_feed feed_url st = (Err e, logged feed_url st)) ∧
  (∀ meta status, Py.getitem (feedparser_parse feed_url) "feed" = Ok meta →
     Py.truthy meta = true →
     Py.getitem (feedparser_parse feed_url) "status" = Ok status →
     (∀ n, status ≠ VInt n) →
     fetch_and_prepare_feed feed_url st = (Err TypeError, logged feed_url st)).
Proof.
  split_and!.
  - intros e He. apply fetch_raises. unfold prepare. by rewrite He.
  - intros meta Hm Ht. apply fetch_raises. unfold prepare. rewrite Hm.
    cbn [mbind result_bind]. by rewrite Ht.
  - intros meta e Hm Ht Hs. apply fetch_raises. unfold prepare. rewrite Hm.
    cbn [mbind result_bind]. rewrite Ht. cbn [negb]. by rewrite Hs.
  - intros meta status Hm Ht Hs Hint. apply fetch_raises. unfold prepare.
    rewrite Hm. cbn [mbind result_bind]. rewrite Ht. cbn [negb]. rewrite Hs.
    cbn [mbind result_bind]. destruct status; try done. by destruct (Hint n).
Qed.

(** The steps of [prepare] on a feed of the shape feedparser returns. *)
(** X4. For a parsed feed with metadata, a status in 200..299 and entries
    that are mappings, [fetch_and_prepare_feed] returns exactly when every
    entry has a datetime 'pubdate' or a 'published_parsed' that the clock
    converts; the first entry that has neither key, the ones before it being
    fine, ends the call in [KeyError] for 'published_parsed'. *)
Theorem fetch_returns_iff_datable (feed_url : string) (st : state)
    (top : gmap string value) (metav : value) (meta : gmap string value)
    (status : Z) (es : list value) :
  as_map (feedparser_parse feed_url) = Some top →
  top !! "feed" = Some metav → as_map metav = Some meta →
  Py.truthy metav = true →
  top !! "status" = Some (VInt status) → 200 ≤ status < 300 →
  top !! "entries" = Some (VList es) →
  Forall (λ e, is_Some (as_map e)) es →
  ((∃ f st', fetch_and_prepare_feed feed_url st = (Ok f, st')) ↔ Forall datable es) ∧
  (∀ pre e post m, es = pre ++ e :: post → Forall datable pre →
     as_map e = Some m →
     (∀ t, m !! "pubdate" ≠ Some (VDatetime t)) →
     m !! "published_parsed" = None →
     fetch_and_prepare_feed feed_url st
       = (Err (KeyError "published_parsed"), logged feed_url st)).
Proof.
  intros Htop Hmeta Hm Htruthy Hstatus Hrange Hes Hall.
  pose proof (prepare_shape _ _ _ _ _ Htop Hmeta Hm Hes Hall) as Hp.
  rewrite Htruthy, (as_map_getitem _ _ "status" Htop), Hstatus in Hp.
  cbn [negb of_option mbind result_bind Py.int_in_range] in Hp.
  replace ((200 <=? status) && (status <? 300)) with true in Hp by lia.
  cbn [negb] in Hp. split.
  - rewrite fetch_unfold, Hp. split.
    + intros (f & st' & Hrun).
      destruct (result_mapM add_pubdate _) as [items |] eqn:Hmap; [| discriminate].
      assert (Hok : ∃ r, result_mapM add_pubdate
                ((λ e, VDict (cast_items (default ∅ (as_map e)))) <$> es) = Ok r)
        by (by eexists).
      pose proof (proj1 (result_mapM_is_Ok add_pubdate _) Hok) as Hok'.
      rewrite Forall_fmap, Forall_forall in Hok'. rewrite Forall_forall in Hall.
      apply Forall_forall. intros e He.
      apply datable_cast. split; [by apply Hall | exact (Hok' e He)].
    + intros Hdat.
      assert (Hok : ∃ r, result_mapM add_pubdate
                ((λ e, VDict (cast_items (default ∅ (as_map e)))) <$> es) = Ok r).
      { apply (proj2 (result_mapM_is_Ok add_pubdate _)).
        apply Forall_fmap. eapply Forall_impl; [exact Hdat |].
        intros e He. apply datable_cast in He. apply He. }
      destruct Hok as [items ->]. cbn. by eexists _, _.
  - intros pre e post m -> Hpre He Hnodate Hnone. apply fetch_raises. rewrite Hp.
    rewrite fmap_app, fmap_cons.
    rewrite (result_mapM_first_error _ _ _ _ (KeyError "published_parsed")); [done | |].
    + apply Forall_fmap. eapply Forall_impl; [exact Hpre |].
      intros x Hx. apply datable_cast in Hx. apply Hx.
    + rewrite He. change (default ∅ (Some m)) with m. rewrite add_pubdate_VDict, !lookup_cast_items, Hnone.
      destruct (m !! "pubdate") as [[] |] eqn:Hpub; cbn; try done.
      by destruct (Hnodate t).
Qed.

End FetchMore.

Lemma fetch_checks_in_order_witness :
  fetch_and_prepare_feed (CO := Offline.world) "feed.xml" Demo.st_empty
    = (Err (KeyError "status"), logged "feed.xml" Demo.st_empty) ∧
  fetch_and_prepare_feed (CO := Demo.world) Demo.empty_source Demo.st_empty
    = (Err FeedFetchError, logged Demo.empty_source Demo.st_empty).
Proof.
  split.
  - destruct (fetch_checks_in_order (CO := Offline.world) "feed.xml" Demo.st_empty)
      as (_ & _ & Hstatus & _).
    apply (Hstatus (VFPDict Demo.meta)); reflexivity.
  - destruct (fetch_checks_in_order (CO := Demo.world) Demo.empty_source Demo.st_empty)
      as (_ & Hempty & _).
    apply (Hempty (VFPDict ∅)); reflexivity.
Defined.

Lemma fetch_returns_iff_datable_witness :
  ∃ f st', fetch_and_prepare_feed (CO := Demo.world) Demo.source Demo.st_empty
             = (Ok f, st').
Proof.
  apply (fetch_returns_iff_datable (CO := Demo.world) Demo.source Demo.st_empty
           (default ∅ (as_map Demo.parsed)) (VFPDict Demo.meta) Demo.meta 200
           [Demo.raw_entry "a" "Go release" (2024, 1, 1, 0, 0, 0, 0, 1, 0);
            Demo.raw_entry "b" "Python news" (2024, 1, 2, 0, 0, 0, 1, 2, 0)]).
  - reflexivity.
  - reflexivity.
  - reflexivity.
  - reflexivity.
  - reflexivity.
  - lia.
  - reflexivity.
  - repeat constructor; by eexists.
  - repeat constructor; (eexists; split; [reflexivity |]; right;
      eexists _, _, _; split_and!; reflexivity).
Defined.

Lemma Forall2_impl_in {A B} (R Q : A → B → Prop) l k :
  Forall2 R l k → (∀ x y, x ∈ l → R x y → Q x y) → Forall2 Q l k.
Proof.
  induction 1 as [| x y l k Hxy _ IH]; intros HRQ; constructor.
  - apply HRQ; [by left | done].
  - apply IH. intros x' y' Hx'. apply HRQ. by right.
Qed.

Section FetchFields.
Context {CO : Collaborators}.

Lemma add_pubdate_VDict_inv m i' :
  add_pubdate (VDict m) = Ok i' →
  ∃ m', i' = VDict m' ∧
    (∀ k, k ≠ "pubdate" → m' !! k = m !! k) ∧
    ∃ t, m' !! "pubdate" = Some (VDatetime t) ∧
         ∀ t0, m !! "pubdate" = Some (VDatetime t0) → t = t0.
Proof.
  rewrite add_pubdate_VDict. intros Hi.
  assert (Hcase : (∃ t, m !! "pubdate" = Some (VDatetime t) ∧ i' = VDict m) ∨
            ((∀ t, m !! "pubdate" ≠ Some (VDatetime t)) ∧
             match m !! "published_parsed" with
             | None => Err (KeyError "published_parsed")
             | Some (VStructTime t) =>
                 secs ← of_option OverflowError (time_mktime t);
                 stamp ← of_option OverflowError (datetime_fromtimestamp secs);
                 Ok (VDict (<["pubdate" := VDatetime stamp]> m))
             | Some _ => Err TypeError
             end = Ok i')).
  { destruct (m !! "pubdate") as [[] |];
      first [left; eexists; split; [done | congruence] | right; split; [done | exact Hi]]. }
  destruct Hcase as [(t & Ht & ->) | [Hno Hi']].
  - exists m. split_and!; [done | done |]. exists t. split; [done | congruence].
  - destruct (m !! "published_parsed") as [[| | | | tt | | |] |];
      cbn in Hi'; try discriminate.
    destruct (time_mktime tt) as [secs |]; cbn in Hi'; [| discriminate].
    destruct (datetime_fromtimestamp secs) as [stamp |]; cbn in Hi'; [| discriminate].
    injection Hi' as <-. eexists. split_and!; [done | |].
    + intros k Hk. by rewrite lookup_insert_ne.
    + exists stamp. split; [apply lookup_insert_eq |]. intros t0 Ht0. by destruct (Hno t0).
Qed.

(** X5. The feed that [fetch_and_prepare_feed] returns for a parsed feed
    with mapping entries is a new object, every other object being left as
    it was; it holds the entries in their number and order, each as a plain
    dict with the fields it had (a FeedParserDict value turned into a plain
    dict) and a datetime under 'pubdate', which is the entry's own when it
    had one. *)
Theorem fetch_keeps_fields (feed_url : string) (st : state)
    (top : gmap string value) (metav : value) (meta : gmap string value)
    (es : list value) (f : loc) (st' : state) :
  as_map (feedparser_parse feed_url) = Some top →
  top !! "feed" = Some metav → as_map metav = Some meta →
  top !! "entries" = Some (VList es) →
  Forall (λ e, is_Some (as_map e)) es →
  fetch_and_prepare_feed feed_url st = (Ok f, st') →
  heap st !! f = None ∧
  (∀ l, l ≠ f → heap st' !! l = heap st !! l) ∧
  deref st' f !! "feed" = Some (VDict (cast_items meta)) ∧
  ∃ es',
    deref st' f !! "entries" = Some (VList es') ∧
    Forall2 (λ e e', ∃ m m', as_map e = Some m ∧ e' = VDict m' ∧
               (∀ k, k ≠ "pubdate" → m' !! k = plain_value <$> m !! k) ∧
               ∃ t, m' !! "pubdate" = Some (VDatetime t) ∧
                    ∀ t0, m !! "pubdate" = Some (VDatetime t0) → t = t0) es es'.
Proof.
  intros Htop Hmeta Hm Hes Hall. rewrite fetch_unfold.
  rewrite (prepare_shape _ _ _ _ _ Htop Hmeta Hm Hes Hall).
  destruct (negb (Py.truthy metav)); [discriminate |].
  destruct (Py.getitem _ "status") as [status |]; [| discriminate].
  cbn [mbind result_bind].
  destruct (Py.int_in_range 200 300 status) as [[] |]; try discriminate.
  cbn [mbind result_bind negb].
  destruct (result_mapM add_pubdate _) as [items |] eqn:Hmap; [| discriminate].
  cbn [mbind result_bind]. intros [= <- <-]. split_and!.
  - apply fresh_loc_new.
  - intros l Hl. unfold store. cbn. by rewrite lookup_insert_ne.
  - by rewrite deref_store_eq, lookup_insert_ne, lookup_insert_eq.
  - exists items. split; [by rewrite deref_store_eq, lookup_insert_eq |].
    apply result_mapM_Ok_inv, Forall2_fmap_l in Hmap.
    rewrite Forall_forall in Hall.
    eapply Forall2_impl_in; [exact Hmap |]. intros e e' He Hadd. unfold compose in Hadd. cbn beta in Hadd.
    destruct (Hall e He) as [m Hmap_e]. rewrite Hmap_e in Hadd.
    change (default ∅ (Some m)) with m in Hadd.
    apply add_pubdate_VDict_inv in Hadd as (m' & -> & Hkeep & t & Ht & Hown).
    exists m, m'. split_and!; [done | done | |].
    + intros k Hk. by rewrite (Hkeep k Hk), lookup_cast_items.
    + exists t. split; [done |]. intros t0 Ht0. apply Hown.
      by rewrite lookup_cast_items, Ht0.
Qed.

End FetchFields.

Lemma fetch_keeps_fields_witness :
  ∃ es',
    deref (fetch_and_prepare_feed (CO := Demo.world) Demo.source Demo.st_empty).2 0%nat
      !! "entries" = Some (VList es') ∧
    length es' = 2%nat.
Proof.
  destruct (fetch_keeps_fields (CO := Demo.world) Demo.source Demo.st_empty
              (default ∅ (as_map Demo.parsed)) (VFPDict Demo.meta) Demo.meta
              [Demo.raw_entry "a" "Go release" (2024, 1, 1, 0, 0, 0, 0, 1, 0);
               Demo.raw_entry "b" "Python news" (2024, 1, 2, 0, 0, 0, 1, 2, 0)]
              0%nat
              (fetch_and_prepare_feed (CO := Demo.world) Demo.source Demo.st_empty).2)
    as (_ & _ & _ & es' & Hes & Hall).
  - reflexivity.
  - reflexivity.
  - reflexivity.
  - reflexivity.
  - repeat constructor; by eexists.
  - vm_compute. reflexivity.
  - exists es'. split; [exact Hes |]. by rewrite <- (Forall2_length _ _ _ Hall).
Defined.

(** ** Field filters *)

Section FilMore.
Context {RE : Regex}.

Lemma fil_loop_errors p key items acc e :
  fil_loop p key items acc = Err e → e = KeyError key ∨ e = TypeError.
Proof.
  revert acc. induction items as [| i items IH]; intros acc; [discriminate |].
  cbn [fil_loop]. destruct (Py.getitem i key) as [v |] eqn:Hv; cbn [mbind result_bind].
  - destruct v; cbn [search mbind result_bind]; try (intros [= <-]; by right).
    apply IH.
  - intros [= <-]. destruct i; cbn in Hv; try (injection Hv as <-; by right);
      (destruct (m !! key); [discriminate | injection Hv as <-; by left]).
Qed.

Lemma iter_errors v e : Py.iter v = Err e → e = TypeError.
Proof. destruct v; cbn; congruence. Qed.

(** X6. A field filter returns exactly when the feed has entries that can
    be iterated and every one of them has a string under the key.  It
    returns the feed it was given.  When it raises, the exception is
    [KeyError] for 'entries' or for the key, or [TypeError], and the store
    is left as it was. *)
Theorem fil_returns_iff (p : pattern) (key : string) (F : loc) (st : state) :
  ((∃ F' st', fil p key F st = (Ok F', st')) ↔
     ∃ entries items, deref st F !! "entries" = Some entries ∧
       Py.iter entries = Ok items ∧ Forall (has_str key) items) ∧
  (∀ F' st', fil p key F st = (Ok F', st') → F' = F) ∧
  (∀ e st', fil p key F st = (Err e, st') →
     st' = st ∧ (e = KeyError "entries" ∨ e = KeyError key ∨ e = TypeError)).
Proof.
  rewrite fil_unfold.
  destruct (deref st F !! "entries") as [entries |] eqn:Hentries.
  2: { split; [split | split].
       - intros (F' & st' & Hrun). discriminate.
       - intros (entries & items & Hsome & _). discriminate.
       - intros F' st' Hrun. discriminate.
       - intros e st' [= <- <-]. auto. }
  destruct (Py.iter entries) as [items |] eqn:Hiter.
  2: { split; [split | split].
       - intros (F' & st' & Hrun). discriminate.
       - intros (entries' & items & [= <-] & Hi & _). congruence.
       - intros F' st' Hrun. discriminate.
       - intros e' st' [= <- <-]. apply iter_errors in Hiter. auto. }
  destruct (fil_loop p key items []) as [nufeed |] eqn:Hloop.
  - split; [split | split].
    + intros _. exists entries, items. split_and!; try done.
      by eapply fil_loop_Ok_inv.
    + intros _. by eexists _, _.
    + by intros F' st' [= <- _].
    + intros e' st' Hrun. discriminate.
  - split; [split | split].
    + intros (F' & st' & Hrun). discriminate.
    + intros (entries' & items' & [= <-] & Hi & Hall). rewrite Hiter in Hi.
      injection Hi as <-. by rewrite fil_loop_ok in Hloop.
    + intros F' st' Hrun. discriminate.
    + intros e' st' [= <- <-]. split; [done |].
      destruct (fil_loop_errors _ _ _ _ _ Hloop); auto.
Qed.

(** X7. A field filter changes nothing but the 'entries' of the feed it is
    given: the other fields of that feed, every other object of the store
    and the record of fetches stay as they are, whether it returns or
    raises; and the entries it leaves are a sublist of the ones it found. *)
Theorem fil_only_narrows (p : pattern) (key : string) (F : loc) (st : state) :
  fetched (fil p key F st).2 = fetched st ∧
  (∀ l, l ≠ F → heap (fil p key F st).2 !! l = heap st !! l) ∧
  (∀ k, k ≠ "entries" → deref (fil p key F st).2 F !! k = deref st F !! k) ∧
  (∀ es F' st', deref st F !! "entries" = Some (VList es) →
     fil p key F st = (Ok F', st') →
     ∃ es', deref st' F !! "entries" = Some (VList es') ∧ es' `sublist_of` es).
Proof.
  rewrite fil_unfold.
  destruct (deref st F !! "entries") as [entries |] eqn:Hentries.
  2: { split_and!; try done. }
  destruct (Py.iter entries) as [items |] eqn:Hiter.
  2: { split_and!; try done. }
  destruct (fil_loop p key items []) as [nufeed |] eqn:Hloop.
  2: { split_and!; try done. }
  split_and!.
  - done.
  - intros l Hl. cbn. by rewrite lookup_insert_ne.
  - intros k Hk. cbn [snd]. by rewrite deref_store_eq, lookup_insert_ne.
  - intros es F' st' [= ->] [= <- <-]. injection Hiter as <-.
    exists nufeed. split; [by rewrite deref_store_eq, lookup_insert_eq |].
    pose proof (fil_loop_Ok_inv _ _ _ _ _ Hloop) as Hall.
    rewrite fil_loop_ok in Hloop by done. injection Hloop as <-.
    apply sublist_filter.
Qed.

(** The conjunction of two field filters, run: [filter2] needs its key in
    every entry, [filter1] only in the entries that [filter2] keeps. *)
Lemma AND_fil_run p1 key1 p2 key2 F st es :
  deref st F !! "entries" = Some (VList es) →
  Forall (has_str key2) es →
  Forall (has_str key1) (filter (field_matches p2 key2) es) →
  AND_filter (fil p1 key1) (fil p2 key2) F st =
    (Ok F, store F (<["entries" :=
                      VList (filter (λ e, field_matches p1 key1 e ∧ field_matches p2 key2 e)
                               es)]> (deref st F)) st).
Proof.
  intros Hes H2 H1. unfold AND_filter. rewrite M_bind_unfold, fil_unfold, Hes.
  cbn [Py.iter]. rewrite fil_loop_ok by done. cbn [app].
  rewrite fil_unfold, deref_store_eq, lookup_insert_eq. cbn [Py.iter].
  rewrite fil_loop_ok by done. cbn [app].
  by rewrite insert_insert_eq, store_store, list_filter_filter.
Qed.

(** X8. [AND_filter] of two field filters keeps the entries that both
    patterns are found in, in their order.  The second filter runs first:
    it needs a string under its key in every entry, the first filter only in
    the entries the second one keeps. *)
Theorem AND_filter_conjunction (p1 : pattern) (key1 : string) (p2 : pattern)
    (key2 : string) (F : loc) (st : state) (es : list value) :
  deref st F !! "entries" = Some (VList es) →
  Forall (has_str key2) es →
  Forall (has_str key1) (filter (field_matches p2 key2) es) →
  AND_filter (fil p1 key1) (fil p2 key2) F st =
    (Ok F, store F (<["entries" :=
                      VList (filter (λ e, field_matches p1 key1 e ∧ field_matches p2 key2 e)
                               es)]> (deref st F)) st).
Proof. apply AND_fil_run. Qed.

Lemma Forall_filter_weaken {A} (P : A → Prop) (Q : A → Prop) `{!∀ x, Decision (Q x)} l :
  Forall P l → Forall P (filter Q l).
Proof.
  rewrite !Forall_forall. intros Hall x [_ Hx]%list_elem_of_filter. by apply Hall.
Qed.

(** X9. On a feed whose entries all have strings under both keys the order
    of two field filters under [AND_filter] makes no difference. *)
Theorem AND_filter_commutes (p1 : pattern) (key1 : string) (p2 : pattern)
    (key2 : string) (F : loc) (st : state) (es : list value) :
  deref st F !! "entries" = Some (VList es) →
  Forall (has_str key1) es →
  Forall (has_str key2) es →
  AND_filter (fil p1 key1) (fil p2 key2) F st
    = AND_filter (fil p2 key2) (fil p1 key1) F st.
Proof.
  intros Hes H1 H2.
  rewrite (AND_fil_run p1 key1 p2 key2 F st es), (AND_fil_run p2 key2 p1 key1 F st es);
    try done; try by apply Forall_filter_weaken.
  do 4 f_equal. apply list_filter_iff. tauto.
Qed.

End FilMore.

Lemma fil_returns_iff_witness :
  ∃ F' st', Demo.title_has "Go" 0%nat (Demo.st_of [Demo.go; Demo.py]) = (Ok F', st').
Proof.
  apply (fil_returns_iff (RE := Demo.literal) "Go" "title" 0%nat
           (Demo.st_of [Demo.go; Demo.py])).
  exists (VList [Demo.go; Demo.py]), [Demo.go; Demo.py].
  split_and!; [reflexivity | reflexivity |].
  repeat constructor; eexists; reflexivity.
Defined.

Lemma fil_only_narrows_witness :
  ∃ es', deref (Demo.title_has "Go" 0%nat (Demo.st_of [Demo.go; Demo.py])).2 0%nat
           !! "entries" = Some (VList es') ∧
         es' `sublist_of` [Demo.go; Demo.py].
Proof.
  destruct (fil_only_narrows (RE := Demo.literal) "Go" "title" 0%nat
              (Demo.st_of [Demo.go; Demo.py])) as (_ & _ & _ & Hsub).
  apply (Hsub [Demo.go; Demo.py] 0%nat); [reflexivity |].
  vm_compute. reflexivity.
Defined.

(** An entry without a title that the link filter rejects: the conjunction
    returns when the link filter runs first, and raises when the title
    filter does. *)
Lemma AND_filter_conjunction_witness :
  AND_filter (Demo.title_has "Go") (fil (RE := Demo.literal) "a" "link") 0%nat
      (Demo.st_of [Demo.go; Demo.untitled])
    = (Ok 0%nat, Demo.st_of [Demo.go]) ∧
  (AND_filter (fil (RE := Demo.literal) "a" "link") (Demo.title_has "Go") 0%nat
     (Demo.st_of [Demo.go; Demo.untitled])).1
    = Err (KeyError "title").
Proof.
  split; [| reflexivity].
  unfold Demo.title_has.
  rewrite (AND_filter_conjunction (RE := Demo.literal) "Go" "title" "a" "link" 0%nat
             (Demo.st_of [Demo.go; Demo.untitled]) [Demo.go; Demo.untitled]).
  - vm_compute. reflexivity.
  - reflexivity.
  - repeat constructor; eexists; reflexivity.
  - vm_compute. repeat constructor. eexists; reflexivity.
Defined.

Lemma AND_filter_commutes_witness :
  AND_filter (Demo.title_has "Go") (fil (RE := Demo.literal) "c" "link") 0%nat
      (Demo.st_of [Demo.go; Demo.py; Demo.both])
    = AND_filter (fil (RE := Demo.literal) "c" "link") (Demo.title_has "Go") 0%nat
        (Demo.st_of [Demo.go; Demo.py; Demo.both]).
Proof.
  apply (AND_filter_commutes (RE := Demo.literal) "Go" "title" "c" "link" 0%nat
           (Demo.st_of [Demo.go; Demo.py; Demo.both]) [Demo.go; Demo.py; Demo.both]).
  - reflexivity.
  - repeat constructor; eexists; reflexivity.
  - repeat constructor; eexists; reflexivity.
Defined.

(** ** Disjunction, further *)

Lemma getitem_errors v k e : Py.getitem v k = Err e → e = KeyError k ∨ e = TypeError.
Proof.
  destruct v; cbn; try (intros [= <-]; by right);
    (destruct (m !! k); [discriminate | intros [= <-]; by left]).
Qed.

Lemma hash_errors v e : Py.hash v = Err e → e = TypeError.
Proof. destruct v; cbn; congruence. Qed.

Lemma lt_errors a b e : Py.lt a b = Err e → e = TypeError.
Proof. destruct a, b; cbn; congruence. Qed.

Lemma iter_add_errors a b e : Py.iter_add a b = Err e → e = TypeError.
Proof. destruct a, b; cbn; congruence. Qed.

Lemma or_loop_errors items entries seen e :
  or_loop items entries seen = Err e → e = KeyError "link" ∨ e = TypeError.
Proof.
  revert entries seen. induction items as [| i items IH]; intros entries seen;
    [discriminate |].
  cbn [or_loop]. destruct (Py.getitem i "link") as [v |] eqn:Hv; cbn [mbind result_bind].
  - destruct (Py.hash v) as [h |] eqn:Hh; cbn [mbind result_bind].
    + case_bool_decide; apply IH.
    + intros [= <-]. right. by eapply hash_errors.
  - intros [= <-]. by eapply getitem_errors.
Qed.

Lemma or_loop_Ok_inv items entries seen r :
  or_loop items entries seen = Ok r → Forall (λ e, is_Some (link_key e)) items.
Proof.
  revert entries seen. induction items as [| i items IH]; intros entries seen Hr;
    [constructor |].
  cbn [or_loop] in Hr.
  destruct (Py.getitem i "link") as [v |] eqn:Hv; [| discriminate]. cbn in Hr.
  destruct (Py.hash v) as [h |] eqn:Hh; [| discriminate]. cbn in Hr.
  constructor.
  - exists h. apply link_key_Some. eauto.
  - case_bool_decide; by eapply IH.
Qed.

Lemma result_mapM_errors {A B} (f : A → result B) l e :
  result_mapM f l = Err e → ∃ x, x ∈ l ∧ f x = Err e.
Proof.
  induction l as [| x l IH]; [discriminate |]. cbn [result_mapM].
  destruct (f x) as [y |] eqn:Hy; cbn [mbind result_bind].
  - destruct (result_mapM f l) as [ys |]; cbn [mbind result_bind]; [discriminate |].
    intros [= <-]. destruct (IH eq_refl) as (z & Hz & Hfz). exists z. split; [by right | done].
  - intros [= <-]. exists x. split; [by left | done].
Qed.

Lemma sort_insert_errors k x l e : sort_insert k x l = Err e → e = TypeError.
Proof.
  induction l as [| [k' y] l IH]; [discriminate |]. cbn [sort_insert].
  destruct (Py.lt k' k) as [[] |] eqn:Hlt; cbn [mbind result_bind].
  - destruct (sort_insert k x l); cbn; [discriminate |]. intros [= <-]. by apply IH.
  - discriminate.
  - intros [= <-]. by eapply lt_errors.
Qed.

Lemma sort_keyed_errors l e : sort_keyed l = Err e → e = TypeError.
Proof.
  induction l as [| [k x] l IH]; [discriminate |]. cbn [sort_keyed].
  destruct (sort_keyed l) as [l' |]; cbn [mbind result_bind].
  - apply sort_insert_errors.
  - intros [= <-]. by apply IH.
Qed.

Lemma or_merge_errors items e :
  or_merge items = Err e →
  e = KeyError "link" ∨ e = KeyError "pubdate" ∨ e = TypeError.
Proof.
  intros Hr. pose proof (or_merge_asserts_nothing items) as Hassert.
  rewrite Hr in Hassert. unfold or_merge in Hr.
  destruct (or_loop items [] ∅) as [[entries seen] |] eqn:Hloop; cbn in Hr.
  2: { injection Hr as <-. destruct (or_loop_errors _ _ _ _ Hloop); auto. }
  unfold list_sort in Hr.
  destruct (result_mapM _ entries) as [keys |] eqn:Hkeys; cbn in Hr.
  2: { injection Hr as <-. apply result_mapM_errors in Hkeys as (x & _ & Hx).
       destruct (getitem_errors _ _ _ Hx); auto. }
  destruct (sort_keyed (zip keys entries)) as [sorted |] eqn:Hsort; cbn in Hr.
  2: { injection Hr as <-. apply sort_keyed_errors in Hsort. auto. }
  case_bool_decide; [discriminate |]. injection Hr as <-. discriminate.
Qed.

(** X10. When both filters have returned feeds and [OR_filter] raises, the
    exception is [KeyError] for 'entries', 'link' or 'pubdate', or
    [TypeError], and the store is the one [filter2] left: the feed [F] has
    by then been changed by [filter2], and the copy made for [filter1]
    stays in the store. *)
Theorem OR_filter_failure (filter1 filter2 : FeedFilter) (F : loc) (st : state)
    (filtered1 : loc) (st1 : state) (filtered2 : loc) (st2 : state)
    (e : exn) (st' : state) :
  filter1 (fresh (dom (heap st))) (store (fresh (dom (heap st))) (deref st F) st)
    = (Ok filtered1, st1) →
  filter2 F st1 = (Ok filtered2, st2) →
  OR_filter filter1 filter2 F st = (Err e, st') →
  st' = st2 ∧
  (e = KeyError "entries" ∨ e = KeyError "link" ∨ e = KeyError "pubdate"
   ∨ e = TypeError).
Proof.
  intros H1 H2. rewrite OR_filter_unfold, H1, H2.
  destruct (deref st2 filtered1 !! "entries") as [entries1 |].
  2: { intros [= <- <-]. auto. }
  destruct (deref st2 filtered2 !! "entries") as [entries2 |].
  2: { intros [= <- <-]. auto. }
  destruct (Py.iter_add entries1 entries2) as [items |] eqn:Hadd; cbn [mbind result_bind].
  - destruct (or_merge items) as [entries |] eqn:Hmerge; [discriminate |].
    intros [= <- <-]. split; [done |].
    destruct (or_merge_errors _ _ Hmerge) as [-> | [-> | ->]]; auto.
  - intros [= <- <-]. apply iter_add_errors in Hadd. auto.
Qed.

Lemma OR_filter_failure_witness :
  ∃ e st',
    OR_filter (Demo.title_has "Go") (Demo.title_has "Python") 0%nat
      (Demo.st_of [Demo.go; undated]) = (Err e, st') ∧
    st' = State (<[1%nat := Demo.feed_of [Demo.go; undated]]>
                   {[ 0%nat := Demo.feed_of [] ]}) [] ∧
    (e = KeyError "entries" ∨ e = KeyError "link" ∨ e = KeyError "pubdate"
     ∨ e = TypeError).
Proof.
  exists (KeyError "pubdate"),
    (State (<[1%nat := Demo.feed_of [Demo.go; undated]]>
              {[ 0%nat := Demo.feed_of [] ]}) []).
  split; [vm_compute; reflexivity |].
  apply (OR_filter_failure (Demo.title_has "Go") (Demo.title_has "Python") 0%nat
           (Demo.st_of [Demo.go; undated])
           1%nat
           (State (<[1%nat := Demo.feed_of [Demo.go; undated]]>
                     {[ 0%nat := Demo.feed_of [Demo.go; undated] ]}) [])
           0%nat
           (State (<[1%nat := Demo.feed_of [Demo.go; undated]]>
                     {[ 0%nat := Demo.feed_of [] ]}) []));
    vm_compute; reflexivity.
Defined.

(** X11. [OR_filter] returns only if every entry of the two filtered feeds
    has a hashable link and every entry it keeps has a 'pubdate'; the
    entries it stores are then the first entries of each link, permuted,
    whatever their 'pubdate' values are. *)
Theorem OR_filter_returns_only_if (filter1 filter2 : FeedFilter) (F : loc) (st : state)
    (filtered1 : loc) (st1 : state) (filtered2 : loc) (st2 : state)
    (es1 es2 : list value) (F' : loc) (st' : state) :
  filter1 (fresh (dom (heap st))) (store (fresh (dom (heap st))) (deref st F) st)
    = (Ok filtered1, st1) →
  filter2 F st1 = (Ok filtered2, st2) →
  deref st2 filtered1 !! "entries" = Some (VList es1) →
  deref st2 filtered2 !! "entries" = Some (VList es2) →
  OR_filter filter1 filter2 F st = (Ok F', st') →
  F' = F ∧
  Forall (λ e, is_Some (link_key e)) (es1 ++ es2) ∧
  ∃ out,
    st' = store F (<["entries" := VList out]> (deref st2 F)) st2 ∧
    out ≡ₚ keep_first (es1 ++ es2) ∧
    Forall (λ e, ∃ v, Py.getitem e "pubdate" = Ok v) out.
Proof.
  intros H1 H2 He1 He2. rewrite OR_filter_unfold, H1, H2, He1, He2.
  cbn [Py.iter_add mbind result_bind].
  destruct (or_merge (es1 ++ es2)) as [out |] eqn:Hmerge; [| discriminate].
  intros [= <- <-]. split; [done |]. unfold or_merge in Hmerge.
  destruct (or_loop (es1 ++ es2) [] ∅) as [[entries seen] |] eqn:Hloop; [| discriminate].
  pose proof (or_loop_Ok_inv _ _ _ _ Hloop) as Hlinks. split; [done |].
  rewrite or_loop_spec in Hloop by done. injection Hloop as <- <-.
  cbn [mbind result_bind app] in Hmerge. rewrite filter_unseen_empty in Hmerge.
  destruct (list_sort _ (keep_first (es1 ++ es2))) as [sorted |] eqn:Hsort;
    [| discriminate].
  cbn [mbind result_bind] in Hmerge. case_bool_decide; [| discriminate].
  injection Hmerge as <-. exists sorted. split_and!; [done | |].
  - by eapply list_sort_Permutation.
  - rewrite (list_sort_Permutation _ _ _ Hsort). unfold list_sort in Hsort.
    destruct (result_mapM _ (keep_first (es1 ++ es2))) as [keys |] eqn:Hkeys;
      [| discriminate].
    apply result_mapM_Ok_inv in Hkeys.
    clear - Hkeys. induction Hkeys; constructor; eauto.
Qed.

Lemma OR_filter_returns_only_if_witness :
  Forall (λ e, is_Some (link_key e)) ([Demo.go; Demo.both] ++ [Demo.py; Demo.both]).
Proof.
  apply (OR_filter_returns_only_if (Demo.title_has "Go") (Demo.title_has "Python") 0%nat
           (Demo.st_of [Demo.go; Demo.py; Demo.both])
           1%nat
           (State (<[1%nat := Demo.feed_of [Demo.go; Demo.both]]>
                     {[ 0%nat := Demo.feed_of [Demo.go; Demo.py; Demo.both] ]}) [])
           0%nat
           (State (<[1%nat := Demo.feed_of [Demo.go; Demo.both]]>
                     {[ 0%nat := Demo.feed_of [Demo.py; Demo.both] ]}) [])
           [Demo.go; Demo.both] [Demo.py; Demo.both] 0%nat
           (OR_filter (Demo.title_has "Go") (Demo.title_has "Python") 0%nat
              (Demo.st_of [Demo.go; Demo.py; Demo.both])).2).
  - vm_compute. reflexivity.
  - vm_compute. reflexivity.
  - reflexivity.
  - reflexivity.
  - vm_compute. reflexivity.
Defined.

(** ** Disjunction of two field filters *)







Lemma deref_is_Some st l k v : deref st l !! k = Some v → is_Some (heap st !! l).
Proof.
  unfold deref. rewrite lookup_total_alt. destruct (heap st !! l); [eauto |].
  cbn. by rewrite lookup_empty.
Qed.

Section OrFields.
Context {RE : Regex}.


End OrFields.


(** ** The copy *)

Lemma drop_first_frame c s l : l ≠ c → heap (drop_first c s).2 !! l = heap s !! l.
Proof.
  intros Hl. unfold drop_first. rewrite bind_obj_getitem.
  destruct (deref s c !! "entries") as [[] |]; try done.
  rewrite bind_obj_setitem. cbn. by rewrite lookup_insert_ne.
Qed.

(** X12. The copy isolates [F] from [filter1].  Let [filter1] write only to
    the feed it is given and return it, and let [filter2] be a field
    filter.  Then [filter2] filters the entries that [F] had when
    [OR_filter] was called, whatever [filter1] did to the entries of its
    copy: [OR_filter] returns [F] holding the first entries per link of what
    [filter1] left followed by the entries of [F] that the pattern is found
    in, ascending by 'pubdate'. *)
Theorem OR_filter_isolates {RE : Regex} (filter1 : FeedFilter) (p : pattern)
    (key : string) (F : loc) (st : state) (es es1 : list value) (st1 : state) :
  (∀ c s l, l ≠ c → heap (filter1 c s).2 !! l = heap s !! l) →
  deref st F !! "entries" = Some (VList es) →
  filter1 (fresh (dom (heap st))) (store (fresh (dom (heap st))) (deref st F) st)
    = (Ok (fresh (dom (heap st))), st1) →
  deref st1 (fresh (dom (heap st))) !! "entries" = Some (VList es1) →
  Forall (has_str key) es →
  Forall (λ e, entry_ok e = true) (es1 ++ es) →
  ∃ st',
    OR_filter filter1 (fil p key) F st = (Ok F, st') ∧
    deref st' F !! "entries"
      = Some (VList (isort (keep_first (es1 ++ filter (field_matches p key) es)))).
Proof.
  intros Hlocal Hes Hrun Hes1 Hkey Hok.
  pose proof (fresh_loc_ne st F (deref_is_Some _ _ _ _ Hes)) as Hne.
  set (c := fresh (dom (heap st))) in *.
  assert (HF1 : deref st1 F = deref st F).
  { specialize (Hlocal c (store c (deref st F) st) F (not_eq_sym Hne)).
    rewrite Hrun in Hlocal. cbn [snd] in Hlocal.
    unfold deref. rewrite !lookup_total_alt, Hlocal. unfold store. cbn.
    by rewrite lookup_insert_ne. }
  set (B := filter (field_matches p key) es).
  set (st2 := store F (<["entries" := VList B]> (deref st F)) st1).
  assert (Hrun2 : fil p key F st1 = (Ok F, st2)).
  { rewrite fil_unfold, HF1, Hes. cbn [Py.iter]. by rewrite fil_loop_ok. }
  apply Forall_app in Hok as [Hok1 Hok2].
  exists (store F (<["entries" := VList (isort (keep_first (es1 ++ B)))]> (deref st2 F)) st2).
  split.
  - apply (OR_filter_run _ _ F st c st1 F st2 es1 B); try done.
    + unfold st2. by rewrite deref_store_ne.
    + unfold st2. by rewrite deref_store_eq, lookup_insert_eq.
    + apply Forall_app. split; [done | by apply Forall_filter_weaken].
  - by rewrite deref_store_eq, lookup_insert_eq.
Qed.

Lemma OR_filter_isolates_witness :
  ∃ st',
    OR_filter drop_first (Demo.title_has "Go") 0%nat
      (Demo.st_of [Demo.go; Demo.py; Demo.both]) = (Ok 0%nat, st') ∧
    deref st' 0%nat !! "entries" = Some (VList [Demo.py; Demo.both; Demo.go]).
Proof.
  apply (OR_filter_isolates (RE := Demo.literal) drop_first "Go" "title" 0%nat
           (Demo.st_of [Demo.go; Demo.py; Demo.both])
           [Demo.go; Demo.py; Demo.both] [Demo.py; Demo.both]
           (State (<[1%nat := Demo.feed_of [Demo.py; Demo.both]]>
                     {[ 0%nat := Demo.feed_of [Demo.go; Demo.py; Demo.both] ]}) [])).
  - intros c s l Hl. by apply drop_first_frame.
  - reflexivity.
  - vm_compute. reflexivity.
  - reflexivity.
  - repeat constructor; eexists; reflexivity.
  - repeat constructor.
Defined.

(** ** Writing the feed *)

Section WriteMore.
Context {CO : Collaborators}.

Lemma entry_description_VDict m :
  entry_description (VDict m) = Ok (VDict (describe m)).
Proof.
  cbn. unfold describe. by destruct (m !! "description"), (m !! "summary").
Qed.

Lemma add_items_run f ms : ∀ done o o' st,
  deref st f !! "entries" = Some (VList (done ++ (VDict <$> ms))) →
  add_all o (describe <$> ms) = Some o' →
  ∃ st', add_items f (length done) (VDict <$> ms) o st = (Ok o', st') ∧
    deref st' f !! "entries"
      = Some (VList (done ++ (VDict <$> (describe <$> ms)))) ∧
    (∀ k, k ≠ "entries" → deref st' f !! k = deref st f !! k) ∧
    (∀ l, l ≠ f → heap st' !! l = heap st !! l) ∧
    fetched st' = fetched st.
Proof.
  induction ms as [| m ms IH]; intros done o o' st Hes Hadd.
  - injection Hadd as <-. exists st. cbn [add_items fmap list_fmap]. by split_and!.
  - cbn [fmap list_fmap add_all] in Hadd, Hes |- *.
    destruct (add_item o (describe m)) as [o1 |] eqn:Ho1; [| discriminate].
    cbn [mbind option_bind] in Hadd.
    set (st1 := store f (<["entries" :=
                            VList (done ++ VDict (describe m) :: (VDict <$> ms))]>
                           (deref st f)) st).
    assert (Hes1 : deref st1 f !! "entries"
                   = Some (VList ((done ++ [VDict (describe m)]) ++ (VDict <$> ms)))).
    { unfold st1. by rewrite deref_store_eq, lookup_insert_eq, <- app_assoc. }
    destruct (IH (done ++ [VDict (describe m)]) o1 o' st1 Hes1 Hadd)
      as (st' & Hrun & Hout & Hkeys & Hlocs & Hfetched).
    exists st'. split_and!.
    + cbn [add_items]. rewrite bind_lift, entry_description_VDict, bind_obj_getitem, Hes.
      rewrite bind_obj_setitem, bind_lift. cbn [Py.kwargs]. rewrite bind_lift, Ho1.
      cbn [of_option]. rewrite insert_app_r_alt, Nat.sub_diag by lia.
      cbn [insert list_insert]. fold st1.
      rewrite length_app in Hrun. cbn [length] in Hrun.
      by rewrite Nat.add_1_r in Hrun.
    + rewrite Hout. by rewrite <- app_assoc.
    + intros k Hk. rewrite Hkeys by done. unfold st1.
      by rewrite deref_store_eq, lookup_insert_ne.
    + intros l Hl. rewrite Hlocs by done. unfold st1, store. cbn.
      by rewrite lookup_insert_ne.
    + rewrite Hfetched. done.
Qed.

Lemma write_feed_run f o o' st ms :
  deref st f !! "entries" = Some (VList (VDict <$> ms)) →
  add_all o (describe <$> ms) = Some o' →
  ∃ st', write_feed f o st = (Ok (prettify (writeString o')), st') ∧
    deref st' f !! "entries" = Some (VList (VDict <$> (describe <$> ms))) ∧
    (∀ k, k ≠ "entries" → deref st' f !! k = deref st f !! k) ∧
    (∀ l, l ≠ f → heap st' !! l = heap st !! l) ∧
    fetched st' = fetched st.
Proof.
  intros Hes Hadd.
  destruct (add_items_run f ms [] o o' st Hes Hadd) as (st' & Hrun & Hout & Hrest).
  exists st'. split; [| by split].
  unfold write_feed. rewrite bind_obj_getitem, Hes, bind_lift. cbn [Py.iter].
  cbn [length] in Hrun. by rewrite (bind_Ok _ _ _ _ _ Hrun).
Qed.

(** X14. The loop of lines 83-88 on a feed whose entries are plain dicts,
    as [fetch_and_prepare_feed] makes them: every entry is handed to the
    feed generator once, in the order of the feed, each with its summary as
    description where it had none; the entries of the feed object are
    changed in the same way, nothing else in the store is, and the string
    returned is the pretty-printed output of the generator after the last
    entry. *)
Theorem write_feed_adds_every_entry (f : loc) (o o' : rss_feed) (st : state)
    (ms : list (gmap string value)) :
  deref st f !! "entries" = Some (VList (VDict <$> ms)) →
  add_all o (describe <$> ms) = Some o' →
  ∃ st', write_feed f o st = (Ok (prettify (writeString o')), st') ∧
    deref st' f !! "entries" = Some (VList (VDict <$> (describe <$> ms))) ∧
    (∀ k, k ≠ "entries" → deref st' f !! k = deref st f !! k) ∧
    (∀ l, l ≠ f → heap st' !! l = heap st !! l) ∧
    fetched st' = fetched st.
Proof. apply write_feed_run. Qed.

(** What the writing leaves alone, whether it succeeds or not. *)
Lemma add_items_frame f items : ∀ n o st,
  (∀ k, k ≠ "entries" → deref (add_items f n items o st).2 f !! k = deref st f !! k).
Proof.
  induction items as [| e items IH]; intros n o st k Hk; [done |].
  cbn [add_items]. rewrite bind_lift.
  destruct (entry_description e) as [i |]; [| done].
  rewrite bind_obj_getitem. destruct (deref st f !! "entries") as [entries |]; [| done].
  assert (Hstep : ∀ st1, deref st1 f !! k = deref st f !! k →
            deref ((kwargs ← lift (Py.kwargs i);
                    o ← lift (of_option (ExternalError "feedgenerator")
                                (add_item o kwargs));
                    add_items f (S n) items o) st1).2 f !! k = deref st f !! k).
  { intros st1 H1. rewrite bind_lift. destruct (Py.kwargs i) as [kw |]; [| done].
    rewrite bind_lift. destruct (add_item o kw) as [o1 |]; [| done].
    cbn [of_option]. by rewrite IH. }
  destruct entries; try (rewrite M_bind_unfold; cbn [mret M_ret]; by apply Hstep).
  rewrite bind_obj_setitem. apply Hstep.
  by rewrite deref_store_eq, lookup_insert_ne.
Qed.

Lemma write_feed_frame f o st k :
  k ≠ "entries" → deref (write_feed f o st).2 f !! k = deref st f !! k.
Proof.
  intros Hk. unfold write_feed. rewrite bind_obj_getitem.
  destruct (deref st f !! "entries") as [entries |]; [| done].
  rewrite bind_lift. destruct (Py.iter entries) as [items |]; [| done].
  rewrite M_bind_unfold.
  pose proof (add_items_frame f items 0%nat o st k Hk) as Hframe.
  destruct (add_items f 0 items o st) as [[o' |] st']; by cbn in *.
Qed.

(** X15. Writing a feed uses it up: after [emit] has returned, the metadata
    of the feed object lacks 'title', 'link' and 'description', which went
    to the generator as positional arguments, and a second [emit] of the
    same object raises [KeyError] for 'title'. *)
Theorem emit_consumes_metadata (f : loc) (st : state) (m : gmap string value)
    (out : string) (st' : state) :
  deref st f !! "feed" = Some (VDict m) →
  emit f st = (Ok out, st') →
  deref st' f !! "feed"
    = Some (VDict (delete "description" (delete "link" (delete "title" m)))) ∧
  ∃ st'', emit f st' = (Err (KeyError "title"), st'').
Proof.
  intros Hm Hrun.
  assert (Hmeta : deref st' f !! "feed"
            = Some (VDict (delete "description" (delete "link" (delete "title" m))))).
  { unfold emit in Hrun. rewrite M_bind_unfold in Hrun.
    destruct (m !! "title") as [t |] eqn:Ht.
    2: { destruct (feed_arguments_missing f st m Hm (or_introl Ht)) as [st1 H1].
         by rewrite H1 in Hrun. }
    destruct (m !! "link") as [l |] eqn:Hl.
    2: { destruct (feed_arguments_missing f st m Hm (or_intror Hl)) as [st1 H1].
         by rewrite H1 in Hrun. }
    rewrite (feed_arguments_complete f st m t l Hm Ht Hl), bind_lift in Hrun.
    destruct (Rss201rev2Feed _ _ _ _) as [o |]; [| discriminate].
    cbn [of_option] in Hrun.
    pose proof (write_feed_frame f o
                  (with_meta f (delete "description" (delete "link" (delete "title" m))) st)
                  "feed") as Hframe.
    rewrite Hrun in Hframe. cbn [snd] in Hframe.
    rewrite Hframe by done. apply deref_with_meta. }
  split; [done |].
  destruct (feed_arguments_missing f st' _ Hmeta) as [st'' Hmiss].
  { left. do 2 rewrite lookup_delete_ne by done. apply lookup_delete_eq. }
  do 2 rewrite lookup_delete_ne in Hmiss by done. rewrite lookup_delete_eq in Hmiss.
  exists st''. unfold emit. by rewrite (bind_Err _ _ _ _ _ Hmiss).
Qed.

End WriteMore.

Lemma write_feed_adds_every_entry_witness :
  ∃ st',
    write_feed (CO := Demo.world) 0%nat []
      (Demo.st_of
         [plain_value (Demo.raw_entry "a" "Go release" (2024, 1, 1, 0, 0, 0, 0, 1, 0));
          plain_value (Demo.raw_entry "b" "Python news" (2024, 1, 2, 0, 0, 0, 1, 2, 0))])
      = (Ok "a;b", st') ∧
    ∃ m1 m2,
      deref st' 0%nat !! "entries" = Some (VList [VDict m1; VDict m2]) ∧
      m1 !! "description" = Some (VStr "Go release") ∧
      m2 !! "description" = Some (VStr "Python news").
Proof.
  destruct (write_feed_adds_every_entry (CO := Demo.world) 0%nat [] ["a"; "b"]
              (Demo.st_of
                 [plain_value (Demo.raw_entry "a" "Go release"
                                 (2024, 1, 1, 0, 0, 0, 0, 1, 0));
                  plain_value (Demo.raw_entry "b" "Python news"
                                 (2024, 1, 2, 0, 0, 0, 1, 2, 0))])
              [default ∅ (as_map (Demo.raw_entry "a" "Go release"
                                    (2024, 1, 1, 0, 0, 0, 0, 1, 0)));
               default ∅ (as_map (Demo.raw_entry "b" "Python news"
                                    (2024, 1, 2, 0, 0, 0, 1, 2, 0)))])
    as (st' & Hrun & Hout & _).
  - reflexivity.
  - vm_compute. reflexivity.
  - exists st'. split; [exact Hrun |]. eexists _, _. split; [exact Hout |].
    split; reflexivity.
Defined.

Lemma emit_consumes_metadata_witness :
  ∃ st'',
    emit (CO := Demo.world) 0%nat
      (emit (CO := Demo.world) 0%nat
         (Demo.st_of [plain_value (Demo.raw_entry "a" "Go release"
                                     (2024, 1, 1, 0, 0, 0, 0, 1, 0))])).2
    = (Err (KeyError "title"), st'').
Proof.
  apply (emit_consumes_metadata (CO := Demo.world) 0%nat
           (Demo.st_of [plain_value (Demo.raw_entry "a" "Go release"
                                       (2024, 1, 1, 0, 0, 0, 0, 1, 0))])
           Demo.meta "a").
  - reflexivity.
  - vm_compute. reflexivity.
Defined.

(** ** The whole pipeline *)

Lemma result_mapM_Forall2 {A B} (f : A → result B) l r :
  Forall2 (λ x y, f x = Ok y) l r → result_mapM f l = Ok r.
Proof.
  induction 1 as [| x y l r Hxy _ IH]; [done |]. cbn. by rewrite Hxy, IH.
Qed.

Lemma plain_entries_fmap es ms :
  Forall2 (λ e m, as_map e = Some m) es ms →
  Forall (λ e, ∃ m, e = VDict m) es →
  es = VDict <$> ms.
Proof.
  induction 1 as [| e m es ms Hm _ IH]; [done |].
  intros [[m' ->] Hes]%Forall_cons. cbn [fmap list_fmap]. injection Hm as ->.
  by rewrite <- IH.
Qed.

Section Pipeline.
Context {RE : Regex} {CO : Collaborators}.

(** X16. [filter_feed] with a field filter, end to end.  For a parsed feed
    with metadata that has a title and a link, a status in 200..299 and
    entries that can be dated and hold a string under [key], the string
    returned is the pretty-printed output of the generator, made from the
    title, the link, the description chosen for the feed and the remaining
    metadata, after it was given the entries that the pattern is found in,
    in the order of the feed and each once.  One fetch is recorded and no
    object that existed is changed. *)
Theorem filter_feed_field_filter (feed_url : string) (p : pattern) (key : string)
    (st : state) (top : gmap string value) (metav : value)
    (meta : gmap string value) (status : Z) (es es' : list value)
    (t l : value) (ms : list (gmap string value)) (o o' : rss_feed) :
  as_map (feedparser_parse feed_url) = Some top →
  top !! "feed" = Some metav → as_map metav = Some meta →
  Py.truthy metav = true →
  top !! "status" = Some (VInt status) → 200 ≤ status < 300 →
  top !! "entries" = Some (VList es) →
  Forall2 (λ e e', ∃ m, as_map e = Some m ∧
             add_pubdate (VDict (cast_items m)) = Ok e') es es' →
  Forall (has_str key) es' →
  cast_items meta !! "title" = Some t → cast_items meta !! "link" = Some l →
  Rss201rev2Feed t l (spec_description (cast_items meta))
    (delete "description" (delete "link" (delete "title" (cast_items meta)))) = Some o →
  Forall2 (λ e m, as_map e = Some m) (filter (field_matches p key) es') ms →
  add_all o (describe <$> ms) = Some o' →
  ∃ st',
    filter_feed feed_url (fil p key) st = (Ok (prettify (writeString o')), st') ∧
    fetched st' = fetched st ++ [feed_url] ∧
    ∀ x, is_Some (heap st !! x) → heap st' !! x = heap st !! x.
Proof.
  intros Htop Hmetav Hmeta Htruthy Hstatus Hrange Hes Hprep Hkey Ht Hl Ho Hms Hadd.
  set (f := fresh (dom (heap st))).
  set (kept := filter (field_matches p key) es') in *.
  set (rest := delete "description" (delete "link" (delete "title" (cast_items meta)))) in *.
  set (d1 := <["entries" := VList es']> (<["feed" := VDict (cast_items meta)]> top)).
  set (st1 := store f d1 (State (heap st) (fetched st ++ [feed_url]))).
  assert (Hfetch : fetch_and_prepare_feed feed_url st = (Ok f, st1)).
  { rewrite fetch_unfold.
    rewrite (prepare_shape _ top metav meta es Htop Hmetav Hmeta Hes).
    2: { clear - Hprep. induction Hprep as [| e e' ? ? (m & Hm & _) _ IH];
           constructor; [by eexists | done]. }
    rewrite Htruthy. cbn [negb].
    rewrite (as_map_getitem _ top "status" Htop), Hstatus.
    cbn [of_option mbind result_bind Py.int_in_range].
    replace ((200 <=? status) && (status <? 300)) with true
      by (symmetry; apply andb_true_iff; split; [apply Z.leb_le | apply Z.ltb_lt]; lia).
    cbn [negb]. rewrite (result_mapM_Forall2 add_pubdate _ es').
    - done.
    - apply Forall2_fmap_l. eapply Forall2_impl; [exact Hprep |].
      intros e e' (m & Hm & Hadd'). cbn. by rewrite Hm. }
  set (st2 := store f (<["entries" := VList kept]> d1) st1).
  assert (Hfil : fil p key f st1 = (Ok f, st2)).
  { rewrite fil_unfold. unfold st1 at 1. rewrite deref_store_eq. unfold d1 at 1.
    rewrite lookup_insert_eq. cbn [Py.iter]. rewrite fil_loop_ok by done. cbn [app].
    unfold st2, st1. by rewrite deref_store_eq. }
  assert (Hmeta2 : deref st2 f !! "feed" = Some (VDict (cast_items meta))).
  { unfold st2, d1. rewrite deref_store_eq.
    do 2 rewrite lookup_insert_ne by done. apply lookup_insert_eq. }
  set (st3 := with_meta f rest st2).
  assert (Hentries3 : deref st3 f !! "entries" = Some (VList kept)).
  { unfold st3, with_meta. rewrite deref_store_eq, lookup_insert_ne by done.
    unfold st2. by rewrite deref_store_eq, lookup_insert_eq. }
  assert (Hkept : kept = VDict <$> ms).
  { apply plain_entries_fmap; [done |]. apply Forall_filter_weaken.
    clear - Hprep. induction Hprep as [| e e' ? ? (m & _ & Hdate) _ IH];
      constructor; [| done].
    apply add_pubdate_VDict_inv in Hdate as (m' & -> & _). by eexists. }
  rewrite Hkept in Hentries3.
  destruct (write_feed_run f o o' st3 ms Hentries3 Hadd)
    as (st' & Hwrite & _ & _ & Hlocs & Hfetched).
  exists st'. split_and!.
  - unfold filter_feed. rewrite (bind_Ok _ _ _ _ _ Hfetch), (bind_Ok _ _ _ _ _ Hfil).
    unfold emit. rewrite M_bind_unfold.
    rewrite (feed_arguments_complete f st2 (cast_items meta) t l Hmeta2 Ht Hl).
    fold rest. fold st3. rewrite bind_lift, Ho. cbn [of_option]. exact Hwrite.
  - rewrite Hfetched. done.
  - intros x Hx. pose proof (fresh_loc_ne st x Hx) as Hne. fold f in Hne.
    rewrite Hlocs by done. unfold st3, with_meta, st2, st1, store. cbn.
    by rewrite !lookup_insert_ne.
Qed.

(** X17. How [builtin_main] composes its filters.  One filter is used as it
    is, whatever the operation; of one title pattern and one url pattern the
    title filter is [filter1] and the url filter, on the key 'link', is
    [filter2] of [AND_filter] or [OR_filter]; and two patterns of one kind
    keep their order. *)
Theorem builtin_main_composes (feed : string) (a b : pattern_arg) (pa pb : pattern)
    (operation : string) (st : state) :
  compiled a = Some pa → compiled b = Some pb → operation ∈ ["OR"; "AND"] →
  let compose := if String.eqb operation "OR" then OR_filter else AND_filter in
  builtin_main feed [] [a] operation st = filter_feed feed (fil pa "title") st ∧
  builtin_main feed [a] [] operation st = filter_feed feed (fil pa "link") st ∧
  builtin_main feed [b] [a] operation st
    = filter_feed feed (compose (fil pa "title") (fil pb "link")) st ∧
  builtin_main feed [] [a; b] operation st
    = filter_feed feed (compose (fil pa "title") (fil pb "title")) st ∧
  builtin_main feed [a; b] [] operation st
    = filter_feed feed (compose (fil pa "link") (fil pb "link")) st.
Proof.
  intros Ha Hb Hop compose. rewrite !builtin_main_unfold. unfold compile_all.
  cbn [mapM]. rewrite Ha, Hb. cbn [mbind option_bind mret option_ret fmap list_fmap app].
  rewrite bool_decide_eq_true_2 by done. unfold compose.
  by destruct (String.eqb operation "OR").
Qed.

End Pipeline.

Lemma filter_feed_field_filter_witness :
  ∃ st',
    filter_feed (CO := Demo.world) Demo.source (fil (RE := Demo.literal) "Go" "title")
      Demo.st_empty = (Ok "a", st') ∧
    fetched st' = [Demo.source].
Proof.
  destruct (filter_feed_field_filter (RE := Demo.literal) (CO := Demo.world)
              Demo.source "Go" "title" Demo.st_empty
              (default ∅ (as_map Demo.parsed)) (VFPDict Demo.meta) Demo.meta 200
              [Demo.raw_entry "a" "Go release" (2024, 1, 1, 0, 0, 0, 0, 1, 0);
               Demo.raw_entry "b" "Python news" (2024, 1, 2, 0, 0, 0, 1, 2, 0)]
              (default [] (match deref (fetch_and_prepare_feed (CO := Demo.world)
                                          Demo.source Demo.st_empty).2 0%nat
                                   !! "entries" with
                           | Some (VList l) => Some l
                           | _ => None
                           end))
              (VStr "News") (VStr "http://example.org/")
              [default ∅ (as_map (default VNone
                 (match deref (fetch_and_prepare_feed (CO := Demo.world)
                                 Demo.source Demo.st_empty).2 0%nat
                          !! "entries" with
                  | Some (VList l) => head l
                  | _ => None
                  end)))]
              [] ["a"])
    as (st' & Hrun & Hfetched & _).
  - reflexivity.
  - reflexivity.
  - reflexivity.
  - reflexivity.
  - reflexivity.
  - lia.
  - reflexivity.
  - vm_compute. repeat constructor; eexists; split; reflexivity.
  - vm_compute. repeat constructor; eexists; reflexivity.
  - reflexivity.
  - reflexivity.
  - reflexivity.
  - vm_compute. repeat constructor.
  - vm_compute. reflexivity.
  - exists st'. split; [exact Hrun | exact Hfetched].
Defined.

Lemma builtin_main_composes_witness :
  builtin_main (RE := Demo.literal) (CO := Demo.world) Demo.source
      [PStr "b"] [PStr "Go"] "AND" Demo.st_empty
    = filter_feed (CO := Demo.world) Demo.source
        (AND_filter (fil (RE := Demo.literal) "Go" "title")
                    (fil (RE := Demo.literal) "b" "link")) Demo.st_empty.
Proof.
  destruct (builtin_main_composes (RE := Demo.literal) (CO := Demo.world) Demo.source
              (PStr "Go") (PStr "b") "Go" "b" "AND" Demo.st_empty)
    as (_ & _ & Hboth & _).
  - reflexivity.
  - reflexivity.
  - set_solver.
  - exact Hboth.
Defined.
